(** * The SWW loader of Crayfish: [loadSWW] (corelib/crayfish_sww.cpp)

    [loadSWW] opens a NetCDF container written by the ANUGA simulator, checks
    that the expected dimensions and variables are there, reads the mesh
    geometry and turns the per-timestep [stage] (and, when present, momentum)
    rows into datasets of a [Mesh].

    The embedding follows the C++ statement by statement:
    - a C [float] is an IEEE binary32 value and a [double] a binary64 value,
      both carried by [spec_float] with the operations of [SpecFloat];
    - the NetCDF library is an interface: [NcFile] gives, for one open
      container, the answer of every call the loader makes, a failing call
      being [None];
    - a read writes the values it delivers into the caller's buffer; writing
      past the end of the buffer, reading a cell that was never written and
      indexing a vector out of its bounds have no defined behaviour in C++ and
      make the run [Undefined];
    - dimension lengths are natural numbers, as [size_t] is for this purpose;
      the vectors are sized through an [int] and the loops count with an
      [int], and a length or an index expression that does not fit one makes
      the run [Undefined] where the vector is made or the loop is entered. *)

From Stdlib Require Import ZArith String Bool Lia PeanoNat List.
From Stdlib Require Import SpecFloat.
Import ListNotations.
Local Open Scope string_scope.
Local Open Scope list_scope.

(* ------------------------------------------------------------------ *)
(** ** Floating point *)

(** The carrier of both C floating-point types. *)
Definition float : Type := spec_float.
Definition double : Type := spec_float.

Module F32.
(** IEEE binary32: 24 bits of precision, exponents below 128. *)
Definition prec : Z := 24.
Definition emax : Z := 128.
Definition zero : float := S754_zero false.
Definition of_Z (z : Z) : float := binary_normalize prec emax z 0 false.
Definition add : float -> float -> float := SFadd prec emax.
Definition sub : float -> float -> float := SFsub prec emax.
Definition mul : float -> float -> float := SFmul prec emax.
Definition div : float -> float -> float := SFdiv prec emax.
Definition sqrt : float -> float := SFsqrt prec emax.
End F32.

Module F64.
(** IEEE binary64: 53 bits of precision, exponents below 1024. *)
Definition prec : Z := 53.
Definition emax : Z := 1024.
Definition zero : double := S754_zero false.
Definition of_Z (z : Z) : double := binary_normalize prec emax z 0 false.
Definition div : double -> double -> double := SFdiv prec emax.
(** The implicit conversion of a [float] operand to [double]: exact, the
    mantissa is only brought to its binary64 form. *)
Definition of_float (v : float) : double :=
  match v with
  | S754_finite s m e => binary_normalize prec emax (cond_Zopp s (Zpos m)) e s
  | _ => v
  end.
(** [a > b] on doubles; false as soon as one side is a NaN. *)
Definition gt (a b : double) : bool := SFltb b a.
End F64.

(** [#define DEPTH_THRESHOLD 0.0001]: the double nearest to 1/10000. *)
Definition DEPTH_THRESHOLD : double := S754_finite false 7378697629483821 (-66).

(* ------------------------------------------------------------------ *)
(** ** Runs with undefined behaviour *)

Inductive Run (A : Type) : Type :=
| Done (a : A)
| Undefined.
Arguments Done {A} a.
Arguments Undefined {A}.

Definition bind {A B : Type} (c : Run A) (k : A -> Run B) : Run B :=
  match c with
  | Done a => k a
  | Undefined => Undefined
  end.

Notation "x <- c ;; k" := (bind c (fun x => k))
  (at level 61, c at next level, right associativity).

Fixpoint mapM {A B : Type} (f : A -> Run B) (l : list A) : Run (list B) :=
  match l with
  | [] => Done []
  | a :: l' =>
      b <- f a ;;
      bs <- mapM f l' ;;
      Done (b :: bs)
  end.

(** [v[k]] on a vector or a raw buffer of [length v] cells. *)
Definition index {A : Type} (v : list A) (k : Z) : Run A :=
  match nth_error v (Z.to_nat k) with
  | Some a => Done a
  | None => Undefined
  end.

(** A read that delivers [data] into the buffer [buf]: the values replace the
    first cells, the other cells keep what they held. *)
Definition write_buffer {A : Type} (data buf : list A) : Run (list A) :=
  if (List.length data <=? List.length buf)%nat
  then Done (data ++ skipn (List.length data) buf)
  else Undefined.

(** A read whose return code the caller tests. *)
Definition read_checked {A : Type} (r : option (list A)) (buf : list A)
  : Run (option (list A)) :=
  match r with
  | None => Done None
  | Some data => b <- write_buffer data buf ;; Done (Some b)
  end.

(** A read whose return code the caller drops: after a failed call the buffer
    is as it was. *)
Definition read_unchecked {A : Type} (r : option (list A)) (buf : list A)
  : Run (list A) :=
  match r with
  | None => Done buf
  | Some data => write_buffer data buf
  end.

(* ------------------------------------------------------------------ *)
(** ** The NetCDF interface *)

(** One open container.  [NC_NOERR] is [Some], any other code is [None].
    [nc_get_var_int] delivers C [int]s, [nc_get_vars_float] takes [start],
    [count] and [stride], and [nc_att_float] is what [nc_get_att_float]
    delivers for a global attribute: all of its values. *)
Record NcFile : Type := {
  nc_inq_dimid : string -> option Z;
  nc_inq_dimlen : Z -> option nat;
  nc_inq_varid : string -> option Z;
  nc_get_var_float : Z -> option (list float);
  nc_get_var_int : Z -> option (list Z);
  nc_get_vars_float : Z -> list nat -> list nat -> list Z -> option (list float);
  nc_att_float : string -> option (list float)
}.

(** [nc_get_att_float(ncid, NC_GLOBAL, name, &v)] stores the values of the
    attribute from [&v] on: this is the value it leaves in [v] itself, none
    when the call fails or the attribute is empty. *)
Definition nc_get_att_float (ncid : NcFile) (name : string) : option float :=
  match nc_att_float ncid name with
  | Some (a :: _) => Some a
  | _ => None
  end.

(** The largest [int], and the lengths that a conversion to [int] keeps. *)
Definition INT_MAX : Z := 2 ^ 31 - 1.

Definition fits_int (n : nat) : bool := (Z.of_nat n <=? INT_MAX)%Z.

(** [nc_open] by path. *)
Definition FileSystem : Type := string -> option NcFile.

(* ------------------------------------------------------------------ *)
(** ** The mesh model (crayfish.h, crayfish_mesh.h, crayfish_dataset.h,
       crayfish_output.h) *)

Module LoadStatus.
(** Modelled from the spec: the status object of crayfish.h, "a single
    settable field carrying one of the error kinds"; [clear] resets it. *)
Inductive Error : Type := Err_None | Err_UnknownFormat.
Record t : Type := { mLastError : Error }.
(** Modelled from the spec: [clear()] and the assignment of the field. *)
Definition clear (s : t) : t := {| mLastError := Err_None |}.
Definition setLastError (e : Error) (s : t) : t := {| mLastError := e |}.
End LoadStatus.

Module Node.
(** Modelled from the spec: the node of crayfish_mesh.h, an integer id and
    two coordinates.  The coordinates hold the [float] sum the loader
    stores. *)
Record t : Type := { id : Z; x : float; y : float }.
End Node.

Module Element.
(** Modelled from the spec: the element of crayfish_mesh.h, an integer id, a
    topology tag and the unsigned node indices [p]. *)
Inductive Type_ : Type := E3T.
Record t : Type := { id : Z; eType : Type_; p : list Z }.
End Element.

Module Output.
(** Modelled from the spec: the output of crayfish_output.h, one timestep
    snapshot: a time in hours, one scalar per node, one 2-component vector
    per node for vector outputs, one active flag per element. *)
Record t : Type := {
  time : double;
  values : list float;
  valuesV : list (float * float);
  active : list bool
}.
(** Modelled from the spec: [Output::init(nodeCount, elemCount, isVector)]
    sizes the arrays to the mesh; fresh cells of a QVector are zero. *)
Definition init (nodeCount elemCount : nat) (isVector : bool) : t :=
  {| time := F64.zero;
     values := repeat F32.zero nodeCount;
     valuesV := if isVector then repeat (F32.zero, F32.zero) nodeCount else [];
     active := repeat false elemCount |}.
(** Modelled from the spec: [float2D::length()], the Euclidean norm
    [sqrt(x*x + y*y)] of a vector value. *)
Definition length (v : float * float) : float :=
  F32.sqrt (F32.add (F32.mul (fst v) (fst v)) (F32.mul (snd v) (snd v))).
End Output.

Module DataSet.
(** Modelled from the spec: the dataset of crayfish_dataset.h, "a named,
    typed (Bed | Scalar | Vector), time-varying-or-not ordered sequence of
    Output records".  The value range that [updateZRange] caches is a
    summary of the outputs and is left out. *)
Inductive Type_ : Type := Bed | Scalar | Vector.
Record t : Type := {
  fileName : string;
  type : Type_;
  name : string;
  isTimeVarying : bool;
  outputs : list Output.t
}.
(** Modelled from the spec: "construction, field assignment, append-output"
    of a dataset.  [new DataSet(fileName)] starts without outputs; the loader
    sets type, name and time-varying flag of every dataset it makes, so
    their initial values are never seen. *)
Definition new (fileName : string) : t :=
  {| fileName := fileName; type := Scalar; name := "";
     isTimeVarying := true; outputs := [] |}.
Definition setType (ty : Type_) (d : t) : t :=
  {| fileName := fileName d; type := ty; name := name d;
     isTimeVarying := isTimeVarying d; outputs := outputs d |}.
Definition setName (n : string) (d : t) : t :=
  {| fileName := fileName d; type := type d; name := n;
     isTimeVarying := isTimeVarying d; outputs := outputs d |}.
Definition setIsTimeVarying (b : bool) (d : t) : t :=
  {| fileName := fileName d; type := type d; name := name d;
     isTimeVarying := b; outputs := outputs d |}.
Definition addOutput (o : Output.t) (d : t) : t :=
  {| fileName := fileName d; type := type d; name := name d;
     isTimeVarying := isTimeVarying d; outputs := outputs d ++ [o] |}.
(** Modelled from the spec: [ds->output(t)], the output at position [t]. *)
Definition output (d : t) (i : nat) : Run Output.t :=
  match nth_error (outputs d) i with
  | Some o => Done o
  | None => Undefined
  end.
End DataSet.

Module Mesh.
(** Modelled from the spec: the mesh of crayfish_mesh.h, "an ordered
    sequence of Node and an ordered sequence of Element", with the datasets
    appended to it in creation order. *)
Record t : Type := {
  nodes : list Node.t;
  elements : list Element.t;
  dataSets : list DataSet.t
}.
(** Modelled from the spec: [new Mesh(nodes, elements)] and
    [addDataSet]. *)
Definition new (ns : list Node.t) (es : list Element.t) : t :=
  {| nodes := ns; elements := es; dataSets := [] |}.
Definition addDataSet (d : DataSet.t) (m : t) : t :=
  {| nodes := nodes m; elements := elements m; dataSets := dataSets m ++ [d] |}.
(** The dataset of a given name, the first in creation order. *)
Definition dataSet (m : t) (n : string) : option DataSet.t :=
  find (fun d => String.eqb (DataSet.name d) n) (dataSets m).
End Mesh.

(* ------------------------------------------------------------------ *)
(** ** loadSWW *)

(** What [loadSWW] hands back: the mesh pointer (null is [None]) and the
    caller's status object (a null [status] is [None]). *)
Definition Loaded : Type := (option Mesh.t * option LoadStatus.t)%type.

(** Every failing exit: [status->mLastError = Err_UnknownFormat; return 0]. *)
Definition unknown_format (status : option LoadStatus.t) : Run Loaded :=
  Done (None,
        option_map (LoadStatus.setLastError LoadStatus.Err_UnknownFormat) status).

(** The four lengths as [nc_inq_dimlen] gives them: [size_t] values, which
    the loader hands to [int] parameters and compares with [int] counters
    ([fits_int], [elements_fit_int]). *)
Record Dimensions : Type := {
  nVolumes : nat;
  nVertices : nat;
  nPoints : nat;
  nTimesteps : nat
}.

(** "get dimensions": four [nc_inq_dimid], then four [nc_inq_dimlen]. *)
Definition get_dimensions (ncid : NcFile) : option Dimensions :=
  match nc_inq_dimid ncid "number_of_volumes",
        nc_inq_dimid ncid "number_of_vertices",
        nc_inq_dimid ncid "number_of_points",
        nc_inq_dimid ncid "number_of_timesteps" with
  | Some nVolumesId, Some nVerticesId, Some nPointsId, Some nTimestepsId =>
      match nc_inq_dimlen ncid nVolumesId,
            nc_inq_dimlen ncid nVerticesId,
            nc_inq_dimlen ncid nPointsId,
            nc_inq_dimlen ncid nTimestepsId with
      | Some nvol, Some nver, Some npts, Some nts =>
          Some {| nVolumes := nvol; nVertices := nver;
                  nPoints := npts; nTimesteps := nts |}
      | _, _, _, _ => None
      end
  | _, _, _, _ => None
  end.

Record Variables : Type := {
  xid : Z;
  yid : Z;
  zid : Z;
  volumesid : Z;
  timeid : Z;
  stageid : Z
}.

(** The six [nc_inq_varid] of the required variables. *)
Definition get_variables (ncid : NcFile) : option Variables :=
  match nc_inq_varid ncid "x", nc_inq_varid ncid "y", nc_inq_varid ncid "z",
        nc_inq_varid ncid "volumes", nc_inq_varid ncid "time",
        nc_inq_varid ncid "stage" with
  | Some ix, Some iy, Some iz, Some ivol, Some itime, Some istage =>
      Some {| xid := ix; yid := iy; zid := iz; volumesid := ivol;
              timeid := itime; stageid := istage |}
  | _, _, _, _, _, _ => None
  end.

(** [(int * ) pvolumes]: the [int]s of the file land in [unsigned int]
    cells. *)
Definition to_unsigned (v : Z) : Z := v mod 2 ^ 32.

Record MeshData : Type := {
  px : list float;
  py : list float;
  pz : list float;
  pvolumes : list Z
}.

(** "load mesh data": [px], [py], [pz] are zero-filled vectors of [nPoints]
    cells, made by [QVector(int)]; [pvolumes] is a raw array of
    [nVertices * nVolumes] cells, every one of which the element loop reads,
    so the read has to fill it whole.  The four reads are tested in turn and
    the first failure ends them. *)
Definition load_mesh_data (ncid : NcFile) (d : Dimensions) (v : Variables)
  : Run (option MeshData) :=
  if negb (fits_int (nPoints d)) then Undefined else
  rx <- read_checked (nc_get_var_float ncid (xid v))
                     (repeat F32.zero (nPoints d)) ;;
  match rx with
  | None => Done None
  | Some bx =>
    ry <- read_checked (nc_get_var_float ncid (yid v))
                       (repeat F32.zero (nPoints d)) ;;
    match ry with
    | None => Done None
    | Some by_ =>
      rz <- read_checked (nc_get_var_float ncid (zid v))
                         (repeat F32.zero (nPoints d)) ;;
      match rz with
      | None => Done None
      | Some bz =>
        match nc_get_var_int ncid (volumesid v) with
        | None => Done None
        | Some vols =>
          if (List.length vols =? nVertices d * nVolumes d)%nat
          then Done (Some {| px := bx; py := by_; pz := bz;
                             pvolumes := map to_unsigned vols |})
          else Undefined
        end
      end
    end
  end.

(** The corner read of lines 116-117, on a single [float]: an attribute of
    two values or more is stored past it. *)
Definition read_corner (ncid : NcFile) (name : string) : Run unit :=
  match nc_att_float ncid name with
  | Some (_ :: _ :: _) => Undefined
  | _ => Done tt
  end.

(** Whether the element loop stays within [int]: its largest index
    expression is [3 * (nVolumes - 1) + 2]. *)
Definition elements_fit_int (n : nat) : bool :=
  (3 * Z.of_nat n <=? INT_MAX + 1)%Z.

(** [nc_get_att_float(ncid, NC_GLOBAL, name, &corner)] on a variable that
    starts at 0 and stays so when the attribute is missing. *)
Definition corner (ncid : NcFile) (name : string) : float :=
  match nc_get_att_float ncid name with
  | Some a => a
  | None => F32.zero
  end.

(** The node loop. *)
Definition make_nodes (md : MeshData) (xLLcorner yLLcorner : float) (n : nat)
  : list Node.t :=
  map (fun i => {| Node.id := Z.of_nat i;
                   Node.x := F32.add (nth i (px md) F32.zero) xLLcorner;
                   Node.y := F32.add (nth i (py md) F32.zero) yLLcorner |})
      (seq 0 n).

(** "create output for bed elevation": time 0, every cell active, and the
    node loop's [o->values[i] = pz[i]]. *)
Definition bed_output (md : MeshData) (d : Dimensions) : Output.t :=
  let o := Output.init (nPoints d) (nVolumes d) false in
  {| Output.time := F64.zero;
     Output.values := map (fun i => nth i (pz md) F32.zero) (seq 0 (nPoints d));
     Output.valuesV := Output.valuesV o;
     Output.active := repeat true (nVolumes d) |}.

(** The element loop. *)
Definition make_elements (md : MeshData) (n : nat) : list Element.t :=
  map (fun i => {| Element.id := Z.of_nat i;
                   Element.eType := Element.E3T;
                   Element.p := [ nth (3 * i + 0) (pvolumes md) 0%Z;
                                  nth (3 * i + 1) (pvolumes md) 0%Z;
                                  nth (3 * i + 2) (pvolumes md) 0%Z ] |})
      (seq 0 n).

(** [times[t] / 3600.]: the division is done in double. *)
Definition hours (times : list float) (t : nat) : double :=
  F64.div (F64.of_float (nth t times F32.zero)) (F64.of_Z 3600).

(** [v > DEPTH_THRESHOLD], the float promoted to double. *)
Definition wet (v : float) : bool := F64.gt (F64.of_float v) DEPTH_THRESHOLD.

(** "determine which elements are active (wet)", for one element. *)
Definition element_active (values : list float) (elem : Element.t) : Run bool :=
  v0 <- index values (nth 0 (Element.p elem) 0%Z) ;;
  v1 <- index values (nth 1 (Element.p elem) 0%Z) ;;
  v2 <- index values (nth 2 (Element.p elem) 0%Z) ;;
  Done (wet v0 || wet v1 || wet v2).

(** The body of the depth loop for timestep [t]. *)
Definition depth_output (ncid : NcFile) (d : Dimensions) (v : Variables)
  (times elev : list float) (elements : list Element.t) (t : nat)
  : Run Output.t :=
  let to := Output.init (nPoints d) (nVolumes d) false in
  stage <- read_unchecked
             (nc_get_vars_float ncid (stageid v) [t; 0%nat] [1%nat; nPoints d]
                                [1%Z; 1%Z])
             (Output.values to) ;;
  let values := map (fun j => F32.sub (nth j stage F32.zero)
                                      (nth j elev F32.zero))
                    (seq 0 (nPoints d)) in
  act <- mapM (element_active values) elements ;;
  Done {| Output.time := hours times t;
          Output.values := values;
          Output.valuesV := Output.valuesV to;
          Output.active := act |}.

(** The momentum loop over the timesteps [ts]; [valuesX] and [valuesY] are
    declared before the loop and live across its iterations. *)
Fixpoint momentum_outputs (ncid : NcFile) (d : Dimensions)
  (momentumxid momentumyid : Z) (times : list float) (ds : DataSet.t)
  (valuesX valuesY : list float) (ts : list nat) : Run (list Output.t) :=
  match ts with
  | [] => Done []
  | t :: ts' =>
      dto <- DataSet.output ds t ;;
      vx <- read_unchecked
              (nc_get_vars_float ncid momentumxid [t; 0%nat]
                                 [1%nat; nPoints d] [1%Z; 1%Z]) valuesX ;;
      vy <- read_unchecked
              (nc_get_vars_float ncid momentumyid [t; 0%nat]
                                 [1%nat; nPoints d] [1%Z; 1%Z]) valuesY ;;
      let vv := map (fun i => (nth i vx F32.zero, nth i vy F32.zero))
                    (seq 0 (nPoints d)) in
      let mto := {| Output.time := hours times t;
                    Output.values := map Output.length vv;
                    Output.valuesV := vv;
                    Output.active := Output.active dto |} in
      rest <- momentum_outputs ncid d momentumxid momentumyid times ds vx vy ts' ;;
      Done (mto :: rest)
  end.

(** [addOutput] once per loop iteration, in the order of the iterations. *)
Definition addOutputs (os : list Output.t) (d : DataSet.t) : DataSet.t :=
  fold_left (fun acc o => DataSet.addOutput o acc) os d.

(** "Create a dataset for the bed elevation". *)
Definition bed_dataset (fileName : string) (o : Output.t) : DataSet.t :=
  DataSet.addOutput o
    (DataSet.setIsTimeVarying false
       (DataSet.setName "Bed Elevation"
          (DataSet.setType DataSet.Bed (DataSet.new fileName)))).

(** The dataset [ds] with the outputs of the depth loop. *)
Definition depth_dataset (fileName : string) (tos : list Output.t) : DataSet.t :=
  addOutputs tos
    (DataSet.setIsTimeVarying true
       (DataSet.setName "Depth"
          (DataSet.setType DataSet.Scalar (DataSet.new fileName)))).

(** The dataset [mds] with the outputs of the momentum loop. *)
Definition momentum_dataset (fileName : string) (mtos : list Output.t)
  : DataSet.t :=
  addOutputs mtos
    (DataSet.setIsTimeVarying true
       (DataSet.setName "Momentum"
          (DataSet.setType DataSet.Vector (DataSet.new fileName)))).

(** Everything from the attributes down to [return mesh], the mesh data
    being read. *)
Definition load_results (ncid : NcFile) (fileName : string) (d : Dimensions)
  (v : Variables) (md : MeshData) : Run Mesh.t :=
  _ <- read_corner ncid "xllcorner" ;;
  _ <- read_corner ncid "yllcorner" ;;
  let xLLcorner := corner ncid "xllcorner" in
  let yLLcorner := corner ncid "yllcorner" in
  if negb (elements_fit_int (nVolumes d)) then Undefined else
  let o := bed_output md d in
  let nodes := make_nodes md xLLcorner yLLcorner (nPoints d) in
  let elements := make_elements md (nVolumes d) in
  let mesh := Mesh.new nodes elements in
  let mesh := Mesh.addDataSet (bed_dataset fileName o) mesh in
  if negb (fits_int (nTimesteps d)) then Undefined else
  times <- read_unchecked (nc_get_var_float ncid (timeid v))
                          (repeat F32.zero (nTimesteps d)) ;;
  let elev := Output.values o in
  tos <- mapM (depth_output ncid d v times elev (Mesh.elements mesh))
              (seq 0 (nTimesteps d)) ;;
  let ds := depth_dataset fileName tos in
  let mesh := Mesh.addDataSet ds mesh in
  match nc_inq_varid ncid "xmomentum", nc_inq_varid ncid "ymomentum" with
  | Some momentumxid, Some momentumyid =>
      mtos <- momentum_outputs ncid d momentumxid momentumyid times ds
                (repeat F32.zero (nPoints d)) (repeat F32.zero (nPoints d))
                (seq 0 (nTimesteps d)) ;;
      Done (Mesh.addDataSet (momentum_dataset fileName mtos) mesh)
  | _, _ => Done mesh
  end.

Definition loadSWW (nc_open : FileSystem) (fileName : string)
  (status : option LoadStatus.t) : Run Loaded :=
  let status := option_map LoadStatus.clear status in
  match nc_open fileName with
  | None => unknown_format status
  | Some ncid =>
    match get_dimensions ncid with
    | None => unknown_format status
    | Some d =>
      if negb (nVertices d =? 3)%nat then unknown_format status
      else
        match get_variables ncid with
        | None => unknown_format status
        | Some v =>
          md <- load_mesh_data ncid d v ;;
          match md with
          | None => unknown_format status
          | Some md =>
              mesh <- load_results ncid fileName d v md ;;
              Done (Some mesh, status)
          end
        end
    end
  end.

(* ------------------------------------------------------------------ *)
(** ** What a container holds, by name *)

(** The length of a dimension. *)
Definition dimension (ncid : NcFile) (name : string) : option nat :=
  match nc_inq_dimid ncid name with
  | Some i => nc_inq_dimlen ncid i
  | None => None
  end.

(** The values of a float variable read whole. *)
Definition float_variable (ncid : NcFile) (name : string) : option (list float) :=
  match nc_inq_varid ncid name with
  | Some i => nc_get_var_float ncid i
  | None => None
  end.

(** The values of an integer variable read whole. *)
Definition int_variable (ncid : NcFile) (name : string) : option (list Z) :=
  match nc_inq_varid ncid name with
  | Some i => nc_get_var_int ncid i
  | None => None
  end.

(** Row [t] of a [timesteps x points] variable, read over all the points. *)
Definition row (ncid : NcFile) (name : string) (t : nat) : option (list float) :=
  match nc_inq_varid ncid name, dimension ncid "number_of_points" with
  | Some i, Some n =>
      nc_get_vars_float ncid i [t; 0%nat] [1%nat; n] [1%Z; 1%Z]
  | _, _ => None
  end.

(** The dimensions and the variables a container has to have. *)
Definition required_dimensions : list string :=
  ["number_of_volumes"; "number_of_vertices"; "number_of_points";
   "number_of_timesteps"].

Definition required_variables : list string :=
  ["x"; "y"; "z"; "volumes"; "time"; "stage"].

(** Whether a read, when it succeeds, delivers at most [n] values. *)
Definition fits {A : Type} (r : option (list A)) (n : nat) : bool :=
  match r with
  | Some data => (List.length data <=? n)%nat
  | None => true
  end.

(** Every node index of every element is a node of the mesh. *)
Definition indices_in_range (mesh : Mesh.t) : Prop :=
  Forall (fun elem =>
            Forall (fun k => (0 <= k < Z.of_nat (List.length (Mesh.nodes mesh)))%Z)
                   (Element.p elem))
         (Mesh.elements mesh).

(* ------------------------------------------------------------------ *)
(** ** Sample containers *)

(** A container given by its tables; ids are positions in the tables.  The
    variables have the types the loader asks for, a call on a variable of
    another kind is answered with an error, and a row read succeeds when the
    row is there and has the points asked for. *)
Inductive VarData : Type :=
| Floats (l : list float)
| Ints (l : list Z)
| Rows (rows : list (list float)).

Record Container : Type := {
  dims : list (string * nat);
  vars : list (string * VarData);
  atts : list (string * list float)
}.

Fixpoint position {A : Type} (name : string) (tbl : list (string * A)) (i : Z)
  : option Z :=
  match tbl with
  | [] => None
  | (n, _) :: tbl' =>
      if String.eqb n name then Some i else position name tbl' (i + 1)%Z
  end.

Definition entry {A : Type} (tbl : list (string * A)) (i : Z) : option A :=
  if (i <? 0)%Z then None else option_map snd (nth_error tbl (Z.to_nat i)).

Definition open_container (c : Container) : NcFile :=
  {| nc_inq_dimid := fun name => position name (dims c) 0%Z;
     nc_inq_dimlen := fun i => entry (dims c) i;
     nc_inq_varid := fun name => position name (vars c) 0%Z;
     nc_get_var_float := fun i =>
       match entry (vars c) i with
       | Some (Floats l) => Some l
       | _ => None
       end;
     nc_get_var_int := fun i =>
       match entry (vars c) i with
       | Some (Ints l) => Some l
       | _ => None
       end;
     nc_get_vars_float := fun i start count stride =>
       match entry (vars c) i, start, count with
       | Some (Rows rows), [t; 0%nat], [1%nat; n] =>
           match nth_error rows t with
           | Some r => if (n <=? List.length r)%nat then Some (firstn n r)
                       else None
           | None => None
           end
       | _, _, _ => None
       end;
     nc_att_float := fun name =>
       match position name (atts c) 0%Z with
       | Some i => entry (atts c) i
       | None => None
       end |}.

(** One container under one path. *)
Definition single (path : string) (c : Container) : FileSystem :=
  fun name => if String.eqb name path then Some (open_container c) else None.

(** The float nearest to [n / k]. *)
Definition ratio (n k : Z) : float := F32.div (F32.of_Z n) (F32.of_Z k).

Definition floats (l : list Z) : list float := map F32.of_Z l.

(** Two triangles on four points, two timesteps, momentum and an x offset. *)
Definition pond : Container :=
  {| dims := [("number_of_volumes", 2%nat); ("number_of_vertices", 3%nat);
              ("number_of_points", 4%nat); ("number_of_timesteps", 2%nat)];
     vars := [("x", Floats (floats [0; 1; 1; 0]%Z));
              ("y", Floats (floats [0; 0; 1; 1]%Z));
              ("z", Floats (floats [0; 0; 1; 1]%Z));
              ("volumes", Ints [0; 1; 2; 0; 2; 3]%Z);
              ("time", Floats (floats [1800; 7200]%Z));
              ("stage", Rows [[ratio 1 1000; ratio 1 1000; F32.of_Z 1; F32.of_Z 1];
                              floats [0; 0; 1; 1]%Z]);
              ("xmomentum", Rows [floats [3; 0; 0; 0]%Z; floats [0; 0; 0; 0]%Z]);
              ("ymomentum", Rows [floats [4; 0; 0; 0]%Z; floats [0; 0; 0; 0]%Z])];
     atts := [("xllcorner", [F32.of_Z 100])] |}.

(** The scenario of the specification: one timestep, flat bed, no momentum. *)
Definition scenario : Container :=
  {| dims := [("number_of_volumes", 2%nat); ("number_of_vertices", 3%nat);
              ("number_of_points", 4%nat); ("number_of_timesteps", 1%nat)];
     vars := [("x", Floats (floats [0; 1; 1; 0]%Z));
              ("y", Floats (floats [0; 0; 1; 1]%Z));
              ("z", Floats (floats [0; 0; 0; 0]%Z));
              ("volumes", Ints [0; 1; 2; 0; 2; 3]%Z);
              ("time", Floats (floats [0]%Z));
              ("stage", Rows [[ratio 1 1000; ratio 1 1000;
                               ratio 5 100000; ratio 5 100000]])];
     atts := [] |}.

(** Quadrilateral elements. *)
Definition quads : Container :=
  {| dims := [("number_of_volumes", 1%nat); ("number_of_vertices", 4%nat);
              ("number_of_points", 4%nat); ("number_of_timesteps", 0%nat)];
     vars := [("x", Floats (floats [0; 1; 1; 0]%Z));
              ("y", Floats (floats [0; 0; 1; 1]%Z));
              ("z", Floats (floats [0; 0; 0; 0]%Z));
              ("volumes", Ints [0; 1; 2; 3]%Z);
              ("time", Floats []);
              ("stage", Rows [])];
     atts := [] |}.

(** One timestep announced, but [stage] holds no row: the row read fails. *)
Definition rowless : Container :=
  {| dims := [("number_of_volumes", 1%nat); ("number_of_vertices", 3%nat);
              ("number_of_points", 3%nat); ("number_of_timesteps", 1%nat)];
     vars := [("x", Floats (floats [0; 1; 0]%Z));
              ("y", Floats (floats [0; 0; 1]%Z));
              ("z", Floats (floats [2; 2; 2]%Z));
              ("volumes", Ints [0; 1; 2]%Z);
              ("time", Floats (floats [0]%Z));
              ("stage", Rows [])];
     atts := [] |}.

(** No timestep, momentum variables present, and a triangle that names the
    points 1 and 5 of a mesh that has the single point 0. *)
Definition dangling : Container :=
  {| dims := [("number_of_volumes", 1%nat); ("number_of_vertices", 3%nat);
              ("number_of_points", 1%nat); ("number_of_timesteps", 0%nat)];
     vars := [("x", Floats (floats [0]%Z));
              ("y", Floats (floats [0]%Z));
              ("z", Floats (floats [0]%Z));
              ("volumes", Ints [0; 1; 5]%Z);
              ("time", Floats []);
              ("stage", Rows []);
              ("xmomentum", Rows []);
              ("ymomentum", Rows [])];
     atts := [] |}.

(** The pond without its [stage] variable. *)
Definition stageless : Container :=
  {| dims := dims pond;
     vars := [("x", Floats (floats [0; 1; 1; 0]%Z));
              ("y", Floats (floats [0; 0; 1; 1]%Z));
              ("z", Floats (floats [0; 0; 1; 1]%Z));
              ("volumes", Ints [0; 1; 2; 0; 2; 3]%Z);
              ("time", Floats (floats [1800; 7200]%Z))];
     atts := atts pond |}.

(** The geometry of the pond before the first timestep is written. *)
Definition still : Container :=
  {| dims := [("number_of_volumes", 2%nat); ("number_of_vertices", 3%nat);
              ("number_of_points", 4%nat); ("number_of_timesteps", 0%nat)];
     vars := [("x", Floats (floats [0; 1; 1; 0]%Z));
              ("y", Floats (floats [0; 0; 1; 1]%Z));
              ("z", Floats (floats [0; 0; 1; 1]%Z));
              ("volumes", Ints [0; 1; 2; 0; 2; 3]%Z);
              ("time", Floats []);
              ("stage", Rows []);
              ("xmomentum", Rows []);
              ("ymomentum", Rows [])];
     atts := [] |}.

(** The pond with a [z] variable that stops after two points. *)
Definition shallow : Container :=
  {| dims := dims pond;
     vars := [("x", Floats (floats [0; 1; 1; 0]%Z));
              ("y", Floats (floats [0; 0; 1; 1]%Z));
              ("z", Floats (floats [1; 1]%Z));
              ("volumes", Ints [0; 1; 2; 0; 2; 3]%Z);
              ("time", Floats (floats [1800; 7200]%Z));
              ("stage", Rows [floats [1; 1; 1; 1]%Z; floats [1; 1; 1; 1]%Z])];
     atts := atts pond |}.

(** The pond on a medium that answers every whole read of an integer
    variable with an error. *)
Definition torn : NcFile :=
  let f := open_container pond in
  {| nc_inq_dimid := nc_inq_dimid f;
     nc_inq_dimlen := nc_inq_dimlen f;
     nc_inq_varid := nc_inq_varid f;
     nc_get_var_float := nc_get_var_float f;
     nc_get_var_int := fun _ => None;
     nc_get_vars_float := nc_get_vars_float f;
     nc_att_float := nc_att_float f |}.

Definition torn_only : FileSystem :=
  fun name => if String.eqb name "torn.sww" then Some torn else None.

(** The still pond with a [time] variable of one value, although no
    timestep is announced. *)
Definition timed_still : Container :=
  {| dims := dims still;
     vars := [("x", Floats (floats [0; 1; 1; 0]%Z));
              ("y", Floats (floats [0; 0; 1; 1]%Z));
              ("z", Floats (floats [0; 0; 1; 1]%Z));
              ("volumes", Ints [0; 1; 2; 0; 2; 3]%Z);
              ("time", Floats (floats [0]%Z));
              ("stage", Rows [])];
     atts := [] |}.

(** The still pond with an [xllcorner] attribute of two values. *)
Definition twin_corner : Container :=
  {| dims := dims still;
     vars := vars still;
     atts := [("xllcorner", floats [100; 200]%Z)] |}.

(** A status object that holds a stale error. *)
Definition stale : LoadStatus.t :=
  {| LoadStatus.mLastError := LoadStatus.Err_UnknownFormat |}.

(** The mesh of a run, when it returned one. *)
Definition returned_mesh (r : Run Loaded) : Mesh.t :=
  match r with
  | Done (Some m, _) => m
  | _ => Mesh.new [] []
  end.

Definition pond_mesh : Mesh.t :=
  Eval vm_compute in
    returned_mesh (loadSWW (single "pond.sww" pond) "pond.sww" (Some stale)).

Definition scenario_mesh : Mesh.t :=
  Eval vm_compute in
    returned_mesh (loadSWW (single "scenario.sww" scenario) "scenario.sww" None).

Definition rowless_mesh : Mesh.t :=
  Eval vm_compute in
    returned_mesh
      (loadSWW (single "rowless.sww" rowless) "rowless.sww" (Some stale)).

Definition dangling_mesh : Mesh.t :=
  Eval vm_compute in
    returned_mesh
      (loadSWW (single "dangling.sww" dangling) "dangling.sww" (Some stale)).

Definition shallow_mesh : Mesh.t :=
  Eval vm_compute in
    returned_mesh (loadSWW (single "shallow.sww" shallow) "shallow.sww" None).

(* ------------------------------------------------------------------ *)
(** ** Runs, buffers and loops *)

Lemma bind_Done {A B : Type} (c : Run A) (k : A -> Run B) (b : B) :
  bind c k = Done b -> exists a, c = Done a /\ k a = Done b.
Proof.
  destruct c as [a|]; simpl; intros H; [eauto | discriminate].
Qed.

Section Runs.
Context {A B : Type}.

Lemma mapM_Done_cons (f : A -> Run B) (a : A) (l : list A) (r : list B) :
  mapM f (a :: l) = Done r ->
  exists b bs, f a = Done b /\ mapM f l = Done bs /\ r = b :: bs.
Proof.
  simpl; intros H.
  apply bind_Done in H as (b & Hb & H).
  destruct (mapM f l) as [bs|]; simpl in H; [|discriminate].
  injection H as <-. eauto.
Qed.

Lemma mapM_length (f : A -> Run B) (l : list A) (r : list B) :
  mapM f l = Done r -> List.length r = List.length l.
Proof.
  revert r; induction l as [|a l IH]; intros r H.
  - injection H as <-. reflexivity.
  - apply mapM_Done_cons in H as (b & bs & _ & Hbs & ->).
    simpl. now rewrite (IH bs).
Qed.

Lemma mapM_nth_error (f : A -> Run B) (l : list A) (r : list B) (i : nat) (b : B) :
  mapM f l = Done r -> nth_error r i = Some b ->
  exists a, nth_error l i = Some a /\ f a = Done b.
Proof.
  revert r i; induction l as [|a l IH]; intros r i H Hi.
  - injection H as <-. destruct i; discriminate.
  - apply mapM_Done_cons in H as (b0 & bs & Hb0 & Hbs & ->).
    destruct i as [|i]; simpl in *.
    + injection Hi as <-. eauto.
    + eauto.
Qed.

End Runs.

Section Buffers.
Context {A : Type}.

Lemma write_buffer_Done (data buf b : list A) :
  write_buffer data buf = Done b ->
  (List.length data <= List.length buf)%nat /\
  b = data ++ skipn (List.length data) buf.
Proof.
  unfold write_buffer.
  destruct (List.length data <=? List.length buf)%nat eqn:E; [|discriminate].
  intros H; injection H as <-.
  apply Nat.leb_le in E. auto.
Qed.

Lemma write_buffer_length (data buf b : list A) :
  write_buffer data buf = Done b -> List.length b = List.length buf.
Proof.
  intros H; apply write_buffer_Done in H as [Hle ->].
  rewrite length_app, length_skipn. lia.
Qed.

Lemma write_buffer_nth (data buf b : list A) (n : nat) (a dflt : A) :
  write_buffer data buf = Done b -> nth_error data n = Some a ->
  nth n b dflt = a.
Proof.
  intros H Hn; apply write_buffer_Done in H as [_ ->].
  assert (n < List.length data)%nat
    by (apply nth_error_Some; congruence).
  rewrite app_nth1 by assumption.
  now apply nth_error_nth.
Qed.

(** A read that fills the buffer whole leaves nothing of it. *)
Lemma write_buffer_whole (data buf b : list A) :
  write_buffer data buf = Done b -> List.length data = List.length buf ->
  b = data.
Proof.
  intros H Hlen; apply write_buffer_Done in H as [_ ->].
  rewrite Hlen, skipn_all. apply app_nil_r.
Qed.

Lemma write_buffer_fits (data buf : list A) :
  (List.length data <=? List.length buf)%nat = true ->
  write_buffer data buf = Done (data ++ skipn (List.length data) buf).
Proof.
  unfold write_buffer; now intros ->.
Qed.

Lemma read_checked_Some (r : option (list A)) (buf b : list A) :
  read_checked r buf = Done (Some b) ->
  exists data, r = Some data /\ write_buffer data buf = Done b.
Proof.
  destruct r as [data|]; simpl; [|discriminate].
  intros H; apply bind_Done in H as (b' & Hw & H).
  injection H as <-. eauto.
Qed.

Lemma read_unchecked_length (r : option (list A)) (buf b : list A) :
  read_unchecked r buf = Done b -> List.length b = List.length buf.
Proof.
  destruct r as [data|]; simpl.
  - apply write_buffer_length.
  - now intros H; injection H as <-.
Qed.

Lemma read_unchecked_nth (data buf b : list A) (n : nat) (a dflt : A) :
  read_unchecked (Some data) buf = Done b -> nth_error data n = Some a ->
  nth n b dflt = a.
Proof.
  simpl; apply write_buffer_nth.
Qed.

End Buffers.

(** A list read cell by cell over its own length is the list. *)
Lemma map_nth_seq {A : Type} (l : list A) (dflt : A) :
  map (fun i => nth i l dflt) (seq 0 (List.length l)) = l.
Proof.
  apply nth_error_ext; intros n.
  destruct (Nat.lt_ge_cases n (List.length l)) as [Hlt|Hge].
  - rewrite nth_error_map, nth_error_seq.
    replace (n <? List.length l)%nat with true
      by (symmetry; now apply Nat.ltb_lt).
    simpl. symmetry. now apply nth_error_nth'.
  - rewrite (proj2 (nth_error_None _ _)) by (now rewrite length_map, length_seq).
    symmetry. now apply nth_error_None.
Qed.

Lemma nth_error_map_seq {A : Type} (f : nat -> A) (n i : nat) :
  (i < n)%nat -> nth_error (map f (seq 0 n)) i = Some (f i).
Proof.
  intros Hi. rewrite nth_error_map, nth_error_seq.
  replace (i <? n)%nat with true by (symmetry; now apply Nat.ltb_lt).
  reflexivity.
Qed.

Lemma nth_error_map_seq_inv {A : Type} (f : nat -> A) (n i : nat) (a : A) :
  nth_error (map f (seq 0 n)) i = Some a -> (i < n)%nat /\ a = f i.
Proof.
  intros H.
  assert (Hi : (i < List.length (map f (seq 0 n)))%nat)
    by (apply nth_error_Some; congruence).
  rewrite length_map, length_seq in Hi.
  split; [assumption|].
  rewrite nth_error_map_seq in H by assumption. congruence.
Qed.

(* ------------------------------------------------------------------ *)
(** ** The phases of the loader *)

Ltac case_scrutinee H :=
  match type of H with
  | context [match ?c with _ => _ end] => destruct c eqn:?; try discriminate H
  end.

Ltac case_goal :=
  match goal with
  | |- context [match ?c with _ => _ end] => destruct c eqn:?
  end.

Lemma get_dimensions_Some (ncid : NcFile) (d : Dimensions) :
  get_dimensions ncid = Some d ->
  dimension ncid "number_of_volumes" = Some (nVolumes d) /\
  dimension ncid "number_of_vertices" = Some (nVertices d) /\
  dimension ncid "number_of_points" = Some (nPoints d) /\
  dimension ncid "number_of_timesteps" = Some (nTimesteps d).
Proof.
  unfold get_dimensions, dimension; intros H.
  repeat case_scrutinee H.
  injection H as <-. simpl. auto.
Qed.

Lemma get_dimensions_missing (ncid : NcFile) (name : string) :
  In name required_dimensions -> dimension ncid name = None ->
  get_dimensions ncid = None.
Proof.
  unfold required_dimensions, get_dimensions, dimension; simpl.
  intros [<-|[<-|[<-|[<-|[]]]]] H;
    repeat (case_goal; try reflexivity; try congruence).
Qed.

Lemma get_variables_Some (ncid : NcFile) (v : Variables) :
  get_variables ncid = Some v ->
  nc_inq_varid ncid "x" = Some (xid v) /\
  nc_inq_varid ncid "y" = Some (yid v) /\
  nc_inq_varid ncid "z" = Some (zid v) /\
  nc_inq_varid ncid "volumes" = Some (volumesid v) /\
  nc_inq_varid ncid "time" = Some (timeid v) /\
  nc_inq_varid ncid "stage" = Some (stageid v).
Proof.
  unfold get_variables; intros H.
  repeat case_scrutinee H.
  injection H as <-. simpl. auto 10.
Qed.

Lemma get_variables_missing (ncid : NcFile) (name : string) :
  In name required_variables -> nc_inq_varid ncid name = None ->
  get_variables ncid = None.
Proof.
  unfold required_variables, get_variables; simpl.
  intros [<-|[<-|[<-|[<-|[<-|[<-|[]]]]]]] H;
    repeat (case_goal; try reflexivity; try congruence).
Qed.

Lemma load_mesh_data_Some (ncid : NcFile) (d : Dimensions) (v : Variables)
  (md : MeshData) :
  load_mesh_data ncid d v = Done (Some md) ->
  exists dx dy dz vols,
    nc_get_var_float ncid (xid v) = Some dx /\
    write_buffer dx (repeat F32.zero (nPoints d)) = Done (px md) /\
    nc_get_var_float ncid (yid v) = Some dy /\
    write_buffer dy (repeat F32.zero (nPoints d)) = Done (py md) /\
    nc_get_var_float ncid (zid v) = Some dz /\
    write_buffer dz (repeat F32.zero (nPoints d)) = Done (pz md) /\
    nc_get_var_int ncid (volumesid v) = Some vols /\
    List.length vols = (nVertices d * nVolumes d)%nat /\
    pvolumes md = map to_unsigned vols.
Proof.
  unfold load_mesh_data; intros H.
  destruct (fits_int (nPoints d)); simpl in H; [|discriminate].
  apply bind_Done in H as ([bx|] & Hx & H); [|discriminate].
  apply bind_Done in H as ([by_|] & Hy & H); [|discriminate].
  apply bind_Done in H as ([bz|] & Hz & H); [|discriminate].
  destruct (nc_get_var_int ncid (volumesid v)) as [vols|] eqn:Hv; [|discriminate].
  destruct (List.length vols =? nVertices d * nVolumes d)%nat eqn:Hlen;
    [|discriminate].
  injection H as <-; simpl.
  apply read_checked_Some in Hx as (dx & Hdx & Hwx).
  apply read_checked_Some in Hy as (dy & Hdy & Hwy).
  apply read_checked_Some in Hz as (dz & Hdz & Hwz).
  apply Nat.eqb_eq in Hlen.
  exists dx, dy, dz, vols. auto 10.
Qed.

(** The buffers of a mesh that was read have one cell per point. *)
Lemma load_mesh_data_lengths (ncid : NcFile) (d : Dimensions) (v : Variables)
  (md : MeshData) :
  load_mesh_data ncid d v = Done (Some md) ->
  List.length (px md) = nPoints d /\ List.length (py md) = nPoints d /\
  List.length (pz md) = nPoints d /\
  List.length (pvolumes md) = (nVertices d * nVolumes d)%nat.
Proof.
  intros H.
  apply load_mesh_data_Some in H
    as (dx & dy & dz & vols & _ & Hx & _ & Hy & _ & Hz & _ & Hlen & Hv).
  apply write_buffer_length in Hx, Hy, Hz.
  rewrite repeat_length in Hx, Hy, Hz.
  rewrite Hv, length_map. auto.
Qed.

Lemma addOutputs_outputs (os : list Output.t) (d : DataSet.t) :
  DataSet.outputs (addOutputs os d) = DataSet.outputs d ++ os.
Proof.
  unfold addOutputs. revert d; induction os as [|o os IH]; intros d; simpl.
  - now rewrite app_nil_r.
  - rewrite IH. simpl. now rewrite <- app_assoc.
Qed.

Lemma addOutputs_fields (os : list Output.t) (d : DataSet.t) :
  DataSet.type (addOutputs os d) = DataSet.type d /\
  DataSet.name (addOutputs os d) = DataSet.name d /\
  DataSet.isTimeVarying (addOutputs os d) = DataSet.isTimeVarying d.
Proof.
  unfold addOutputs. revert d; induction os as [|o os IH]; intros d; simpl.
  - auto.
  - destruct (IH (DataSet.addOutput o d)) as (-> & -> & ->). auto.
Qed.

Lemma depth_dataset_outputs (fileName : string) (tos : list Output.t) :
  DataSet.outputs (depth_dataset fileName tos) = tos.
Proof. unfold depth_dataset. now rewrite addOutputs_outputs. Qed.

Lemma depth_dataset_name (fileName : string) (tos : list Output.t) :
  DataSet.name (depth_dataset fileName tos) = "Depth".
Proof.
  unfold depth_dataset.
  now destruct (addOutputs_fields tos
    (DataSet.setIsTimeVarying true
       (DataSet.setName "Depth"
          (DataSet.setType DataSet.Scalar (DataSet.new fileName)))))
    as (_ & -> & _).
Qed.

Lemma momentum_dataset_outputs (fileName : string) (mtos : list Output.t) :
  DataSet.outputs (momentum_dataset fileName mtos) = mtos.
Proof. unfold momentum_dataset. now rewrite addOutputs_outputs. Qed.

Lemma momentum_dataset_name (fileName : string) (mtos : list Output.t) :
  DataSet.name (momentum_dataset fileName mtos) = "Momentum".
Proof.
  unfold momentum_dataset.
  now destruct (addOutputs_fields mtos
    (DataSet.setIsTimeVarying true
       (DataSet.setName "Momentum"
          (DataSet.setType DataSet.Vector (DataSet.new fileName)))))
    as (_ & -> & _).
Qed.

(** What a mesh that [load_results] returns is made of. *)
Lemma load_results_Done (ncid : NcFile) (fileName : string) (d : Dimensions)
  (v : Variables) (md : MeshData) (mesh : Mesh.t) :
  load_results ncid fileName d v md = Done mesh ->
  exists times tos rest,
    read_unchecked (nc_get_var_float ncid (timeid v))
                   (repeat F32.zero (nTimesteps d)) = Done times /\
    mapM (depth_output ncid d v times (Output.values (bed_output md d))
                       (make_elements md (nVolumes d)))
         (seq 0 (nTimesteps d)) = Done tos /\
    Mesh.nodes mesh =
      make_nodes md (corner ncid "xllcorner") (corner ncid "yllcorner")
                 (nPoints d) /\
    Mesh.elements mesh = make_elements md (nVolumes d) /\
    Mesh.dataSets mesh =
      bed_dataset fileName (bed_output md d)
      :: depth_dataset fileName tos :: rest /\
    ((rest = [] /\
      (nc_inq_varid ncid "xmomentum" = None \/
       nc_inq_varid ncid "ymomentum" = None))
     \/
     (exists momentumxid momentumyid mtos,
        nc_inq_varid ncid "xmomentum" = Some momentumxid /\
        nc_inq_varid ncid "ymomentum" = Some momentumyid /\
        momentum_outputs ncid d momentumxid momentumyid times
          (depth_dataset fileName tos)
          (repeat F32.zero (nPoints d)) (repeat F32.zero (nPoints d))
          (seq 0 (nTimesteps d)) = Done mtos /\
        rest = [momentum_dataset fileName mtos])).
Proof.
  unfold load_results; intros H.
  apply bind_Done in H as (_ & _ & H).
  apply bind_Done in H as (_ & _ & H).
  destruct (elements_fit_int (nVolumes d)); simpl in H; [|discriminate].
  destruct (fits_int (nTimesteps d)); simpl in H; [|discriminate].
  apply bind_Done in H as (times & Htimes & H).
  apply bind_Done in H as (tos & Htos & H).
  simpl in Htos.
  destruct (nc_inq_varid ncid "xmomentum") as [mx|] eqn:Hmx.
  - destruct (nc_inq_varid ncid "ymomentum") as [my|] eqn:Hmy.
    + apply bind_Done in H as (mtos & Hmtos & H).
      injection H as <-.
      exists times, tos, [momentum_dataset fileName mtos].
      repeat split; try assumption; try reflexivity.
      right. exists mx, my, mtos. auto.
    + injection H as <-.
      exists times, tos, []. repeat split; try assumption; try reflexivity.
      left; auto.
  - injection H as <-.
    exists times, tos, []. repeat split; try assumption; try reflexivity.
    left; auto.
Qed.

(** What a load that returns a mesh went through. *)
Lemma loadSWW_loaded (nc_open : FileSystem) (fileName : string)
  (status status' : option LoadStatus.t) (mesh : Mesh.t) :
  loadSWW nc_open fileName status = Done (Some mesh, status') ->
  exists ncid d v md,
    nc_open fileName = Some ncid /\
    get_dimensions ncid = Some d /\
    nVertices d = 3%nat /\
    get_variables ncid = Some v /\
    load_mesh_data ncid d v = Done (Some md) /\
    load_results ncid fileName d v md = Done mesh /\
    status' = option_map LoadStatus.clear status.
Proof.
  unfold loadSWW, unknown_format; intros H.
  destruct (nc_open fileName) as [ncid|] eqn:Hopen; [|discriminate].
  destruct (get_dimensions ncid) as [d|] eqn:Hd; [|discriminate].
  destruct (nVertices d =? 3)%nat eqn:Hv; simpl in H; [|discriminate].
  destruct (get_variables ncid) as [v|] eqn:Hvars; [|discriminate].
  apply bind_Done in H as ([md|] & Hmd & H); [|discriminate].
  apply bind_Done in H as (m & Hm & H).
  injection H as <- <-.
  apply Nat.eqb_eq in Hv.
  exists ncid, d, v, md. auto 10.
Qed.

Lemma float_variable_id (ncid : NcFile) (name : string) (i : Z) :
  nc_inq_varid ncid name = Some i ->
  float_variable ncid name = nc_get_var_float ncid i.
Proof. unfold float_variable; now intros ->. Qed.

Lemma int_variable_id (ncid : NcFile) (name : string) (i : Z) :
  nc_inq_varid ncid name = Some i ->
  int_variable ncid name = nc_get_var_int ncid i.
Proof. unfold int_variable; now intros ->. Qed.

Lemma row_id (ncid : NcFile) (name : string) (i : Z) (n t : nat) :
  nc_inq_varid ncid name = Some i ->
  dimension ncid "number_of_points" = Some n ->
  row ncid name t =
  nc_get_vars_float ncid i [t; 0%nat] [1%nat; n] [1%Z; 1%Z].
Proof. unfold row; now intros -> ->. Qed.

(** The datasets of a returned mesh, by name. *)
Lemma dataSet_by_name (mesh : Mesh.t) (fileName : string) (o : Output.t)
  (tos : list Output.t) (rest : list DataSet.t) :
  Mesh.dataSets mesh =
    bed_dataset fileName o :: depth_dataset fileName tos :: rest ->
  Mesh.dataSet mesh "Bed Elevation" = Some (bed_dataset fileName o) /\
  Mesh.dataSet mesh "Depth" = Some (depth_dataset fileName tos) /\
  Mesh.dataSet mesh "Momentum" =
    find (fun d => String.eqb (DataSet.name d) "Momentum") rest.
Proof.
  intros H; unfold Mesh.dataSet; rewrite H; simpl.
  rewrite depth_dataset_name. simpl. auto.
Qed.

(** A load that returns a mesh, seen from the container it opened. *)
Lemma loaded_from (nc_open : FileSystem) (fileName : string)
  (status status' : option LoadStatus.t) (mesh : Mesh.t) (ncid : NcFile) :
  loadSWW nc_open fileName status = Done (Some mesh, status') ->
  nc_open fileName = Some ncid ->
  exists d v md,
    get_dimensions ncid = Some d /\
    nVertices d = 3%nat /\
    get_variables ncid = Some v /\
    load_mesh_data ncid d v = Done (Some md) /\
    load_results ncid fileName d v md = Done mesh /\
    status' = option_map LoadStatus.clear status.
Proof.
  intros H Hopen.
  apply loadSWW_loaded in H as (ncid' & d & v & md & Hopen' & H).
  rewrite Hopen in Hopen'; injection Hopen' as <-.
  exists d, v, md. exact H.
Qed.

Lemma make_nodes_length (md : MeshData) (xLL yLL : float) (n : nat) :
  List.length (make_nodes md xLL yLL n) = n.
Proof. unfold make_nodes. now rewrite length_map, length_seq. Qed.

Lemma make_elements_length (md : MeshData) (n : nat) :
  List.length (make_elements md n) = n.
Proof. unfold make_elements. now rewrite length_map, length_seq. Qed.

Lemma to_unsigned_in_range (v n : Z) :
  (0 <= v < n)%Z -> (0 <= to_unsigned v < n)%Z.
Proof.
  unfold to_unsigned; intros [H0 Hn].
  assert (0 <= v mod 2 ^ 32 < 2 ^ 32)%Z by (apply Z.mod_pos_bound; lia).
  assert (v mod 2 ^ 32 <= v)%Z by (apply Z.mod_le; lia).
  lia.
Qed.

Lemma Forall_nth_in {A : Type} (P : A -> Prop) (l : list A) (n : nat) (dflt : A) :
  Forall P l -> (n < List.length l)%nat -> P (nth n l dflt).
Proof.
  intros H Hn. rewrite Forall_forall in H. apply H. now apply nth_In.
Qed.

(* ------------------------------------------------------------------ *)
(** ** Geometry *)

(** C7.  A mesh that [loadSWW] returns has as many nodes as the container
    has points and as many elements as it has volumes; node [i] has id [i]
    and the coordinates [x[i] + xllcorner], [y[i] + yllcorner], an absent
    attribute counting for 0; element [e] is a triangle whose node indices
    are the entries [3e], [3e+1], [3e+2] of [volumes], in that order, as the
    unsigned values they are stored as. *)
Theorem mesh_geometry (nc_open : FileSystem) (fileName : string)
  (status status' : option LoadStatus.t) (mesh : Mesh.t) (ncid : NcFile) :
  loadSWW nc_open fileName status = Done (Some mesh, status') ->
  nc_open fileName = Some ncid ->
  exists nPts nVols,
    dimension ncid "number_of_points" = Some nPts /\
    dimension ncid "number_of_volumes" = Some nVols /\
    List.length (Mesh.nodes mesh) = nPts /\
    List.length (Mesh.elements mesh) = nVols /\
    (forall i xs ys xi yi,
        float_variable ncid "x" = Some xs -> nth_error xs i = Some xi ->
        float_variable ncid "y" = Some ys -> nth_error ys i = Some yi ->
        nth_error (Mesh.nodes mesh) i =
        Some {| Node.id := Z.of_nat i;
                Node.x := F32.add xi (match nc_get_att_float ncid "xllcorner"
                                      with Some a => a | None => F32.zero end);
                Node.y := F32.add yi (match nc_get_att_float ncid "yllcorner"
                                      with Some a => a | None => F32.zero end)
             |}) /\
    (forall e vols a b c,
        int_variable ncid "volumes" = Some vols ->
        nth_error vols (3 * e) = Some a ->
        nth_error vols (3 * e + 1) = Some b ->
        nth_error vols (3 * e + 2) = Some c ->
        nth_error (Mesh.elements mesh) e =
        Some {| Element.id := Z.of_nat e;
                Element.eType := Element.E3T;
                Element.p := [to_unsigned a; to_unsigned b; to_unsigned c] |}).
Proof.
  intros Hload Hopen.
  destruct (loaded_from _ _ _ _ _ _ Hload Hopen)
    as (d & v & md & Hd & Hver & Hv & Hmd & Hres & _).
  destruct (get_dimensions_Some _ _ Hd) as (Hnvol & _ & Hnpts & _).
  destruct (get_variables_Some _ _ Hv) as (Hx & Hy & _ & Hvol & _).
  destruct (load_mesh_data_Some _ _ _ _ Hmd)
    as (dx & dy & dz & vs & Hdx & Hwx & Hdy & Hwy & _ & _ & Hvs & Hlen & Hpv).
  destruct (load_results_Done _ _ _ _ _ _ Hres)
    as (times & tos & rest & _ & _ & Hnodes & Helems & _).
  exists (nPoints d), (nVolumes d).
  repeat split; try assumption.
  - rewrite Hnodes. apply make_nodes_length.
  - rewrite Helems. apply make_elements_length.
  - intros i xs ys xi yi Hxs Hxi Hys Hyi.
    rewrite (float_variable_id _ _ _ Hx), Hdx in Hxs; injection Hxs as ->.
    rewrite (float_variable_id _ _ _ Hy), Hdy in Hys; injection Hys as ->.
    assert (Hi : (i < nPoints d)%nat).
    { apply write_buffer_Done in Hwx as [Hle _].
      rewrite repeat_length in Hle.
      assert (i < List.length xs)%nat by (apply nth_error_Some; congruence).
      lia. }
    rewrite Hnodes. unfold make_nodes.
    rewrite nth_error_map_seq by assumption.
    rewrite (write_buffer_nth _ _ _ _ _ F32.zero Hwx Hxi).
    rewrite (write_buffer_nth _ _ _ _ _ F32.zero Hwy Hyi).
    reflexivity.
  - intros e vols a b c Hvols Ha Hb Hc.
    rewrite (int_variable_id _ _ _ Hvol), Hvs in Hvols; injection Hvols as ->.
    assert (He : (e < nVolumes d)%nat).
    { assert (3 * e + 2 < List.length vols)%nat
        by (apply nth_error_Some; congruence).
      rewrite Hver in Hlen. lia. }
    rewrite Helems. unfold make_elements.
    rewrite nth_error_map_seq by assumption.
    rewrite Hpv, Nat.add_0_r.
    rewrite (nth_error_nth _ _ 0%Z (map_nth_error to_unsigned _ _ Ha)).
    rewrite (nth_error_nth _ _ 0%Z (map_nth_error to_unsigned _ _ Hb)).
    rewrite (nth_error_nth _ _ 0%Z (map_nth_error to_unsigned _ _ Hc)).
    reflexivity.
Qed.

(** On the pond: node 1 sits at (1 + 100, 0), the second triangle is
    0, 2, 3. *)
Lemma mesh_geometry_pond :
  List.length (Mesh.nodes pond_mesh) = 4%nat /\
  List.length (Mesh.elements pond_mesh) = 2%nat /\
  nth_error (Mesh.nodes pond_mesh) 1 =
    Some {| Node.id := 1; Node.x := F32.of_Z 101; Node.y := F32.zero |} /\
  nth_error (Mesh.elements pond_mesh) 1 =
    Some {| Element.id := 1; Element.eType := Element.E3T;
            Element.p := [0; 2; 3]%Z |}.
Proof.
  destruct (mesh_geometry (single "pond.sww" pond) "pond.sww" (Some stale)
              (Some (LoadStatus.clear stale)) pond_mesh (open_container pond))
    as (nPts & nVols & HnPts & HnVols & Hnodes & Helems & Hnode & Helem);
    [vm_compute; reflexivity | vm_compute; reflexivity |].
  vm_compute in HnPts, HnVols.
  injection HnPts as <-. injection HnVols as <-.
  split; [exact Hnodes|]. split; [exact Helems|]. split.
  - apply (Hnode 1%nat (floats [0; 1; 1; 0]%Z) (floats [0; 0; 1; 1]%Z)
                 (F32.of_Z 1) (F32.of_Z 0)); vm_compute; reflexivity.
  - apply (Helem 1%nat [0; 1; 2; 0; 2; 3]%Z 0%Z 2%Z 3%Z); vm_compute; reflexivity.
Defined.

(** C2, as the specification has it, fails: the loader copies the
    connectivity entries without looking at them.  The dangling container
    has one point and a triangle on the points 0, 1 and 5; it has no
    timestep, so that no depth is ever looked up through these indices, and
    the mesh is returned with them. *)
Lemma dangling_indices_out_of_range :
  ~ (forall nc_open fileName status status' mesh,
        loadSWW nc_open fileName status = Done (Some mesh, status') ->
        indices_in_range mesh).
Proof.
  intros H.
  assert (Hbad : indices_in_range dangling_mesh).
  { apply (H (single "dangling.sww" dangling) "dangling.sww" (Some stale)
             (Some (LoadStatus.clear stale))).
    vm_compute; reflexivity. }
  unfold indices_in_range in Hbad; simpl in Hbad.
  inversion Hbad as [|elem elems Hp _]; subst.
  inversion Hp as [|k0 ks _ Hks]; subst.
  inversion Hks as [|k1 ks' Hk1 _]; subst.
  lia.
Qed.

(** C2, amended.  The node indices of a returned mesh are the connectivity
    entries of the container: when every entry of [volumes] names a point,
    that is lies in [0, number_of_points), every node index of every element
    lies in [0, nodeCount), and nodeCount is number_of_points. *)
Theorem indices_in_range_of_volumes (nc_open : FileSystem) (fileName : string)
  (status status' : option LoadStatus.t) (mesh : Mesh.t) (ncid : NcFile)
  (vols : list Z) (nPts : nat) :
  loadSWW nc_open fileName status = Done (Some mesh, status') ->
  nc_open fileName = Some ncid ->
  dimension ncid "number_of_points" = Some nPts ->
  int_variable ncid "volumes" = Some vols ->
  Forall (fun k => (0 <= k < Z.of_nat nPts)%Z) vols ->
  List.length (Mesh.nodes mesh) = nPts /\ indices_in_range mesh.
Proof.
  intros Hload Hopen HnPts Hvols Hrange.
  destruct (loaded_from _ _ _ _ _ _ Hload Hopen)
    as (d & v & md & Hd & Hver & Hv & Hmd & Hres & _).
  destruct (get_dimensions_Some _ _ Hd) as (_ & _ & Hnpts & _).
  destruct (get_variables_Some _ _ Hv) as (_ & _ & _ & Hvol & _).
  destruct (load_mesh_data_Some _ _ _ _ Hmd)
    as (dx & dy & dz & vs & _ & _ & _ & _ & _ & _ & Hvs & Hlen & Hpv).
  destruct (load_results_Done _ _ _ _ _ _ Hres)
    as (times & tos & rest & _ & _ & Hnodes & Helems & _).
  rewrite HnPts in Hnpts; injection Hnpts as ->.
  rewrite (int_variable_id _ _ _ Hvol), Hvs in Hvols; injection Hvols as ->.
  assert (Hcount : List.length (Mesh.nodes mesh) = nPoints d)
    by (rewrite Hnodes; apply make_nodes_length).
  split; [assumption|].
  assert (Hpvs : Forall (fun k => (0 <= k < Z.of_nat (nPoints d))%Z)
                        (pvolumes md)).
  { rewrite Hpv. apply Forall_map.
    eapply Forall_impl; [|exact Hrange].
    intros k Hk. now apply to_unsigned_in_range. }
  assert (Hpvlen : List.length (pvolumes md) = (3 * nVolumes d)%nat)
    by (rewrite Hpv, length_map, Hlen, Hver; reflexivity).
  unfold indices_in_range. rewrite Hcount, Helems.
  unfold make_elements. apply Forall_map, Forall_forall.
  intros i Hi. apply in_seq in Hi. simpl.
  repeat constructor;
    apply (Forall_nth_in _ _ _ 0%Z Hpvs); lia.
Qed.

Lemma indices_in_range_pond :
  List.length (Mesh.nodes pond_mesh) = 4%nat /\ indices_in_range pond_mesh.
Proof.
  apply (indices_in_range_of_volumes (single "pond.sww" pond) "pond.sww"
           (Some stale) (Some (LoadStatus.clear stale)) pond_mesh
           (open_container pond) [0; 1; 2; 0; 2; 3]%Z 4%nat);
    try (vm_compute; reflexivity).
  repeat constructor; simpl; lia.
Defined.

(* ------------------------------------------------------------------ *)
(** ** Bed elevation *)

(** C6.  A returned mesh has a dataset named "Bed Elevation", of type Bed
    and not time-varying, with one output; that output has one scalar per
    point, the scalar of point [n] being [z[n]] as read, so that the scalar
    array is the [z] array of a container that holds one [z] per point; and
    it has one active flag per volume, all true. *)
Theorem bed_dataset_contract (nc_open : FileSystem) (fileName : string)
  (status status' : option LoadStatus.t) (mesh : Mesh.t) (ncid : NcFile)
  (zs : list float) (nPts nVols : nat) :
  loadSWW nc_open fileName status = Done (Some mesh, status') ->
  nc_open fileName = Some ncid ->
  dimension ncid "number_of_points" = Some nPts ->
  dimension ncid "number_of_volumes" = Some nVols ->
  float_variable ncid "z" = Some zs ->
  exists bed o,
    Mesh.dataSet mesh "Bed Elevation" = Some bed /\
    DataSet.type bed = DataSet.Bed /\
    DataSet.name bed = "Bed Elevation" /\
    DataSet.isTimeVarying bed = false /\
    DataSet.outputs bed = [o] /\
    List.length (Output.values o) = nPts /\
    (forall n z, nth_error zs n = Some z ->
                 nth_error (Output.values o) n = Some z) /\
    (List.length zs = nPts -> Output.values o = zs) /\
    Output.active o = repeat true nVols.
Proof.
  intros Hload Hopen HnPts HnVols Hzs.
  destruct (loaded_from _ _ _ _ _ _ Hload Hopen)
    as (d & v & md & Hd & Hver & Hv & Hmd & Hres & _).
  destruct (get_dimensions_Some _ _ Hd) as (Hnvol & _ & Hnpts & _).
  destruct (get_variables_Some _ _ Hv) as (_ & _ & Hz & _).
  destruct (load_mesh_data_Some _ _ _ _ Hmd)
    as (dx & dy & dz & vs & _ & _ & _ & _ & Hdz & Hwz & _).
  destruct (load_mesh_data_lengths _ _ _ _ Hmd) as (_ & _ & Hpz & _).
  destruct (load_results_Done _ _ _ _ _ _ Hres)
    as (times & tos & rest & _ & _ & _ & _ & Hds & _).
  destruct (dataSet_by_name _ _ _ _ _ Hds) as (Hbed & _).
  rewrite HnPts in Hnpts; injection Hnpts as ->.
  rewrite HnVols in Hnvol; injection Hnvol as ->.
  rewrite (float_variable_id _ _ _ Hz), Hdz in Hzs; injection Hzs as ->.
  assert (Hvalues : Output.values (bed_output md d) = pz md).
  { unfold bed_output; simpl. rewrite <- Hpz at 1. apply map_nth_seq. }
  exists (bed_dataset fileName (bed_output md d)), (bed_output md d).
  repeat split; try assumption; try reflexivity.
  - now rewrite Hvalues.
  - intros n z Hn. rewrite Hvalues.
    pose proof (write_buffer_nth _ _ _ _ _ F32.zero Hwz Hn) as Hnth.
    assert (n < List.length (pz md))%nat.
    { apply write_buffer_Done in Hwz as [Hle _].
      rewrite repeat_length in Hle.
      assert (n < List.length zs)%nat by (apply nth_error_Some; congruence).
      lia. }
    rewrite (nth_error_nth' _ F32.zero) by assumption.
    now rewrite Hnth.
  - intros Hlen. rewrite Hvalues.
    apply (write_buffer_whole _ _ _ Hwz).
    now rewrite repeat_length.
Qed.

Lemma bed_dataset_contract_pond :
  exists bed o,
    Mesh.dataSet pond_mesh "Bed Elevation" = Some bed /\
    DataSet.isTimeVarying bed = false /\
    DataSet.outputs bed = [o] /\
    Output.values o = floats [0; 0; 1; 1]%Z /\
    Output.active o = [true; true].
Proof.
  destruct (bed_dataset_contract (single "pond.sww" pond) "pond.sww"
              (Some stale) (Some (LoadStatus.clear stale)) pond_mesh
              (open_container pond) (floats [0; 0; 1; 1]%Z) 4%nat 2%nat)
    as (bed & o & Hbed & _ & _ & Hvarying & Hout & _ & _ & Hvalues & Hactive);
    try (vm_compute; reflexivity).
  exists bed, o. repeat split; try assumption.
  apply Hvalues. reflexivity.
Defined.

(** C9.  The single output of the bed dataset of a returned mesh has
    time 0. *)
Theorem bed_output_time (nc_open : FileSystem) (fileName : string)
  (status status' : option LoadStatus.t) (mesh : Mesh.t) :
  loadSWW nc_open fileName status = Done (Some mesh, status') ->
  exists bed o,
    Mesh.dataSet mesh "Bed Elevation" = Some bed /\
    DataSet.type bed = DataSet.Bed /\
    DataSet.outputs bed = [o] /\
    Output.time o = F64.of_Z 0.
Proof.
  intros Hload.
  apply loadSWW_loaded in Hload
    as (ncid & d & v & md & _ & _ & _ & _ & _ & Hres & _).
  destruct (load_results_Done _ _ _ _ _ _ Hres)
    as (times & tos & rest & _ & _ & _ & _ & Hds & _).
  destruct (dataSet_by_name _ _ _ _ _ Hds) as (Hbed & _).
  exists (bed_dataset fileName (bed_output md d)), (bed_output md d).
  repeat split; assumption || reflexivity.
Qed.

Lemma bed_output_time_pond :
  exists bed o,
    Mesh.dataSet pond_mesh "Bed Elevation" = Some bed /\
    DataSet.type bed = DataSet.Bed /\
    DataSet.outputs bed = [o] /\
    Output.time o = F64.of_Z 0.
Proof.
  apply (bed_output_time (single "pond.sww" pond) "pond.sww" (Some stale)
           (Some (LoadStatus.clear stale)) pond_mesh).
  vm_compute; reflexivity.
Defined.

(* ------------------------------------------------------------------ *)
(** ** Depth *)

Lemma mapM_nth_error_of {A B : Type} (f : A -> Run B) (l : list A)
  (r : list B) (i : nat) (a : A) :
  mapM f l = Done r -> nth_error l i = Some a ->
  exists b, f a = Done b /\ nth_error r i = Some b.
Proof.
  revert r i; induction l as [|a0 l IH]; intros r i H Hi.
  - destruct i; discriminate.
  - apply mapM_Done_cons in H as (b0 & bs & Hb0 & Hbs & ->).
    destruct i as [|i]; simpl in *.
    + injection Hi as <-. eauto.
    + eauto.
Qed.

Lemma index_Done {A : Type} (v : list A) (k : Z) (a : A) :
  index v k = Done a -> nth_error v (Z.to_nat k) = Some a.
Proof.
  unfold index. destruct (nth_error v (Z.to_nat k)); congruence.
Qed.

Lemma bed_output_values (ncid : NcFile) (d : Dimensions) (v : Variables)
  (md : MeshData) :
  load_mesh_data ncid d v = Done (Some md) ->
  Output.values (bed_output md d) = pz md.
Proof.
  intros Hmd.
  destruct (load_mesh_data_lengths _ _ _ _ Hmd) as (_ & _ & Hpz & _).
  unfold bed_output; simpl. rewrite <- Hpz at 1. apply map_nth_seq.
Qed.

Lemma depth_output_Done (ncid : NcFile) (d : Dimensions) (v : Variables)
  (times elev : list float) (elements : list Element.t) (t : nat)
  (out : Output.t) :
  depth_output ncid d v times elev elements t = Done out ->
  exists stage,
    read_unchecked
      (nc_get_vars_float ncid (stageid v) [t; 0%nat] [1%nat; nPoints d]
                         [1%Z; 1%Z])
      (repeat F32.zero (nPoints d)) = Done stage /\
    Output.time out = hours times t /\
    Output.values out =
      map (fun j => F32.sub (nth j stage F32.zero) (nth j elev F32.zero))
          (seq 0 (nPoints d)) /\
    mapM (element_active (Output.values out)) elements =
      Done (Output.active out).
Proof.
  unfold depth_output; intros H.
  apply bind_Done in H as (stage & Hstage & H).
  apply bind_Done in H as (act & Hact & H).
  injection H as <-. simpl in *. eauto.
Qed.

(** The outputs of the depth loop, one per timestep and in their order. *)
Lemma depth_loop_nth (ncid : NcFile) (d : Dimensions) (v : Variables)
  (times elev : list float) (elements : list Element.t)
  (tos : list Output.t) (t : nat) (out : Output.t) :
  mapM (depth_output ncid d v times elev elements) (seq 0 (nTimesteps d))
    = Done tos ->
  nth_error tos t = Some out ->
  (t < nTimesteps d)%nat /\
  depth_output ncid d v times elev elements t = Done out.
Proof.
  intros Hloop Hout.
  destruct (mapM_nth_error _ _ _ _ _ Hloop Hout) as (t' & Ht' & Hdo).
  rewrite nth_error_seq in Ht'.
  destruct (t <? nTimesteps d)%nat eqn:Hlt; [|discriminate].
  injection Ht' as <-. apply Nat.ltb_lt in Hlt. auto.
Qed.

(** C3.  A returned mesh has a dataset named "Depth" with one output per
    timestep, the output at position [t] being that of timestep [t]: its time
    is [time[t] / 3600] and its scalar at node [n] is [stage[t][n] - z[n]],
    for the values the container delivers. *)
Theorem depth_values_and_times (nc_open : FileSystem) (fileName : string)
  (status status' : option LoadStatus.t) (mesh : Mesh.t) (ncid : NcFile)
  (nTs : nat) :
  loadSWW nc_open fileName status = Done (Some mesh, status') ->
  nc_open fileName = Some ncid ->
  dimension ncid "number_of_timesteps" = Some nTs ->
  exists ds,
    Mesh.dataSet mesh "Depth" = Some ds /\
    List.length (DataSet.outputs ds) = nTs /\
    forall t out,
      nth_error (DataSet.outputs ds) t = Some out ->
      (forall rawTimes rawTime,
          float_variable ncid "time" = Some rawTimes ->
          nth_error rawTimes t = Some rawTime ->
          Output.time out = F64.div (F64.of_float rawTime) (F64.of_Z 3600)) /\
      (forall n stage zs s z,
          row ncid "stage" t = Some stage -> nth_error stage n = Some s ->
          float_variable ncid "z" = Some zs -> nth_error zs n = Some z ->
          nth_error (Output.values out) n = Some (F32.sub s z)).
Proof.
  intros Hload Hopen HnTs.
  destruct (loaded_from _ _ _ _ _ _ Hload Hopen)
    as (d & v & md & Hd & Hver & Hv & Hmd & Hres & _).
  destruct (get_dimensions_Some _ _ Hd) as (_ & _ & Hnpts & Hnts).
  destruct (get_variables_Some _ _ Hv) as (_ & _ & Hz & _ & Htime & Hstage).
  destruct (load_mesh_data_Some _ _ _ _ Hmd)
    as (dx & dy & dz & vs & _ & _ & _ & _ & Hdz & Hwz & _).
  destruct (load_results_Done _ _ _ _ _ _ Hres)
    as (times & tos & rest & Htimes & Htos & _ & _ & Hds & _).
  destruct (dataSet_by_name _ _ _ _ _ Hds) as (_ & Hdepth & _).
  rewrite HnTs in Hnts; injection Hnts as ->.
  exists (depth_dataset fileName tos).
  rewrite depth_dataset_outputs.
  split; [assumption|]. split.
  { rewrite (mapM_length _ _ _ Htos). apply length_seq. }
  intros t out Hout.
  destruct (depth_loop_nth _ _ _ _ _ _ _ _ _ Htos Hout) as (Ht & Hdo).
  destruct (depth_output_Done _ _ _ _ _ _ _ _ Hdo)
    as (sbuf & Hsbuf & Ho_time & Ho_values & _).
  split.
  - intros rawTimes rawTime Hraw HrawTime.
    rewrite (float_variable_id _ _ _ Htime) in Hraw.
    rewrite Hraw in Htimes.
    rewrite Ho_time. unfold hours.
    now rewrite (read_unchecked_nth _ _ _ _ _ F32.zero Htimes HrawTime).
  - intros n stage zs s z Hrow Hs Hzs Hzn.
    rewrite (row_id _ _ _ _ _ Hstage Hnpts) in Hrow.
    rewrite Hrow in Hsbuf.
    rewrite (float_variable_id _ _ _ Hz), Hdz in Hzs; injection Hzs as ->.
    assert (Hn : (n < nPoints d)%nat).
    { apply write_buffer_Done in Hsbuf as [Hle _].
      rewrite repeat_length in Hle.
      assert (n < List.length stage)%nat by (apply nth_error_Some; congruence).
      lia. }
    rewrite Ho_values, nth_error_map_seq by assumption.
    rewrite (read_unchecked_nth _ _ _ _ _ F32.zero Hsbuf Hs).
    rewrite (bed_output_values _ _ _ _ Hmd).
    now rewrite (write_buffer_nth _ _ _ _ _ F32.zero Hwz Hzn).
Qed.

(** On the pond: timestep 0 is at 1800 s, half an hour; node 0 has stage
    1/1000 over a bed at 0, node 2 has stage 1 over a bed at 1. *)
Lemma depth_values_and_times_pond :
  exists ds out,
    Mesh.dataSet pond_mesh "Depth" = Some ds /\
    List.length (DataSet.outputs ds) = 2%nat /\
    nth_error (DataSet.outputs ds) 0 = Some out /\
    Output.time out = F64.div (F64.of_Z 1) (F64.of_Z 2) /\
    nth_error (Output.values out) 0 = Some (ratio 1 1000) /\
    nth_error (Output.values out) 2 = Some F32.zero.
Proof.
  destruct (depth_values_and_times (single "pond.sww" pond) "pond.sww"
              (Some stale) (Some (LoadStatus.clear stale)) pond_mesh
              (open_container pond) 2%nat)
    as (ds & Hds & Hlen & Hout); try (vm_compute; reflexivity).
  vm_compute in Hds. injection Hds as <-.
  eexists; eexists.
  split; [reflexivity|]. split; [exact Hlen|]. split; [reflexivity|].
  destruct (Hout 0%nat _ eq_refl) as (Htime & Hvalues).
  split; [|split].
  - apply (Htime (floats [1800; 7200]%Z) (F32.of_Z 1800)); reflexivity.
  - apply (Hvalues 0%nat
             [ratio 1 1000; ratio 1 1000; F32.of_Z 1; F32.of_Z 1]
             (floats [0; 0; 1; 1]%Z) (ratio 1 1000) (F32.of_Z 0));
      reflexivity.
  - apply (Hvalues 2%nat
             [ratio 1 1000; ratio 1 1000; F32.of_Z 1; F32.of_Z 1]
             (floats [0; 0; 1; 1]%Z) (F32.of_Z 1) (F32.of_Z 1));
      reflexivity.
Defined.

(** The threshold is the double that [0.0001] denotes. *)
Lemma DEPTH_THRESHOLD_value :
  DEPTH_THRESHOLD = F64.div (F64.of_Z 1) (F64.of_Z 10000).
Proof. vm_compute; reflexivity. Qed.

Lemma element_active_Done (values : list float) (elem : Element.t) (b : bool) :
  element_active values elem = Done b ->
  exists d0 d1 d2,
    nth_error values (Z.to_nat (nth 0 (Element.p elem) 0%Z)) = Some d0 /\
    nth_error values (Z.to_nat (nth 1 (Element.p elem) 0%Z)) = Some d1 /\
    nth_error values (Z.to_nat (nth 2 (Element.p elem) 0%Z)) = Some d2 /\
    b = wet d0 || wet d1 || wet d2.
Proof.
  unfold element_active; intros H.
  apply bind_Done in H as (d0 & H0 & H).
  apply bind_Done in H as (d1 & H1 & H).
  apply bind_Done in H as (d2 & H2 & H).
  injection H as <-.
  apply index_Done in H0, H1, H2.
  exists d0, d1, d2. auto.
Qed.

(** C4.  In the "Depth" dataset of a returned mesh, the active flag of
    element [e] at timestep [t] is the disjunction, over the three node
    indices [p0], [p1], [p2] of the element, of [depth[t][p] > 0.0001], the
    depths being the scalars of the same output. *)
Theorem depth_active (nc_open : FileSystem) (fileName : string)
  (status status' : option LoadStatus.t) (mesh : Mesh.t) :
  loadSWW nc_open fileName status = Done (Some mesh, status') ->
  exists ds,
    Mesh.dataSet mesh "Depth" = Some ds /\
    forall t out e elem,
      nth_error (DataSet.outputs ds) t = Some out ->
      nth_error (Mesh.elements mesh) e = Some elem ->
      exists p0 p1 p2 d0 d1 d2,
        Element.p elem = [p0; p1; p2] /\
        nth_error (Output.values out) (Z.to_nat p0) = Some d0 /\
        nth_error (Output.values out) (Z.to_nat p1) = Some d1 /\
        nth_error (Output.values out) (Z.to_nat p2) = Some d2 /\
        nth_error (Output.active out) e =
        Some (F64.gt (F64.of_float d0) DEPTH_THRESHOLD
              || F64.gt (F64.of_float d1) DEPTH_THRESHOLD
              || F64.gt (F64.of_float d2) DEPTH_THRESHOLD).
Proof.
  intros Hload.
  apply loadSWW_loaded in Hload
    as (ncid & d & v & md & _ & _ & _ & _ & _ & Hres & _).
  destruct (load_results_Done _ _ _ _ _ _ Hres)
    as (times & tos & rest & _ & Htos & _ & Helems & Hds & _).
  destruct (dataSet_by_name _ _ _ _ _ Hds) as (_ & Hdepth & _).
  exists (depth_dataset fileName tos).
  rewrite depth_dataset_outputs.
  split; [assumption|].
  intros t out e elem Hout Helem.
  destruct (depth_loop_nth _ _ _ _ _ _ _ _ _ Htos Hout) as (_ & Hdo).
  destruct (depth_output_Done _ _ _ _ _ _ _ _ Hdo) as (_ & _ & _ & _ & Hact).
  rewrite Helems in Helem.
  destruct (mapM_nth_error_of _ _ _ _ _ Hact Helem) as (b & Hb & Hbe).
  destruct (element_active_Done _ _ _ Hb) as (d0 & d1 & d2 & H0 & H1 & H2 & ->).
  unfold make_elements in Helem.
  apply nth_error_map_seq_inv in Helem as (_ & ->).
  simpl in *.
  do 3 eexists. exists d0, d1, d2.
  split; [reflexivity|]. auto.
Qed.

(** On the scenario of the specification: depths 0.001, 0.001, 0.00005,
    0.00005; the triangle 0, 2, 3 is active through its node 0 alone. *)
Lemma depth_active_scenario :
  exists ds out,
    Mesh.dataSet scenario_mesh "Depth" = Some ds /\
    nth_error (DataSet.outputs ds) 0 = Some out /\
    Output.values out =
      [ratio 1 1000; ratio 1 1000; ratio 5 100000; ratio 5 100000] /\
    wet (ratio 1 1000) = true /\ wet (ratio 5 100000) = false /\
    nth_error (Output.active out) 1 = Some true.
Proof.
  destruct (depth_active (single "scenario.sww" scenario) "scenario.sww"
              None None scenario_mesh)
    as (ds & Hds & Hact); [vm_compute; reflexivity|].
  vm_compute in Hds. injection Hds as <-.
  eexists; eexists.
  split; [reflexivity|]. split; [reflexivity|]. split; [reflexivity|].
  split; [reflexivity|]. split; [reflexivity|].
  destruct (Hact 0%nat _ 1%nat _ eq_refl eq_refl)
    as (p0 & p1 & p2 & d0 & d1 & d2 & Hp & H0 & H1 & H2 & Hflag).
  injection Hp as <- <- <-.
  injection H0 as <-. injection H1 as <-. injection H2 as <-.
  exact Hflag.
Defined.

(* ------------------------------------------------------------------ *)
(** ** Momentum *)

(** The outputs of the momentum loop: one per timestep of [ts], made from
    the depth output of that timestep and from the two buffers after the
    reads of that timestep, whatever the buffers held before. *)
Lemma momentum_outputs_Done (ncid : NcFile) (d : Dimensions)
  (momentumxid momentumyid : Z) (times : list float) (ds : DataSet.t)
  (ts : list nat) :
  forall (valuesX valuesY : list float) (mtos : list Output.t),
    momentum_outputs ncid d momentumxid momentumyid times ds valuesX valuesY ts
      = Done mtos ->
    List.length mtos = List.length ts /\
    forall i mto,
      nth_error mtos i = Some mto ->
      exists t dto beforeX beforeY vx vy,
        nth_error ts i = Some t /\
        nth_error (DataSet.outputs ds) t = Some dto /\
        List.length beforeX = List.length valuesX /\
        List.length beforeY = List.length valuesY /\
        read_unchecked
          (nc_get_vars_float ncid momentumxid [t; 0%nat] [1%nat; nPoints d]
                             [1%Z; 1%Z]) beforeX = Done vx /\
        read_unchecked
          (nc_get_vars_float ncid momentumyid [t; 0%nat] [1%nat; nPoints d]
                             [1%Z; 1%Z]) beforeY = Done vy /\
        Output.time mto = hours times t /\
        Output.valuesV mto =
          map (fun i => (nth i vx F32.zero, nth i vy F32.zero))
              (seq 0 (nPoints d)) /\
        Output.values mto = map Output.length (Output.valuesV mto) /\
        Output.active mto = Output.active dto.
Proof.
  induction ts as [|t ts IH]; intros valuesX valuesY mtos H.
  - injection H as <-. split; [reflexivity|].
    intros [|i] mto Hi; discriminate.
  - simpl in H.
    apply bind_Done in H as (dto & Hdto & H).
    apply bind_Done in H as (vx & Hvx & H).
    apply bind_Done in H as (vy & Hvy & H).
    apply bind_Done in H as (rest & Hrest & H).
    injection H as <-.
    destruct (IH _ _ _ Hrest) as (Hlen & Hnth).
    split; [simpl; now rewrite Hlen|].
    intros [|i] mto Hi; simpl in Hi.
    + injection Hi as <-.
      unfold DataSet.output in Hdto.
      destruct (nth_error (DataSet.outputs ds) t) as [o|] eqn:Ho;
        [|discriminate].
      injection Hdto as ->.
      exists t, dto, valuesX, valuesY, vx, vy. simpl. auto 12.
    + apply Hnth in Hi.
      destruct Hi as (t' & dto' & bX & bY & vx' & vy' & Ht' & Hdto' & HbX & HbY & Hi).
      rewrite (read_unchecked_length _ _ _ Hvx) in HbX.
      rewrite (read_unchecked_length _ _ _ Hvy) in HbY.
      exists t', dto', bX, bY, vx', vy'. auto.
Qed.

(** C5.  A load that returns a mesh records no error, whether the momentum
    variables are there or not, and the mesh has a dataset named "Momentum"
    exactly when the container has both [xmomentum] and [ymomentum].  That
    dataset is of type Vector with one output per depth output; at timestep
    [t] its active array is that of the depth output of [t], its vector at
    node [n] is [(xmomentum[t][n], ymomentum[t][n])] and its scalar there is
    the square root of the sum of their squares. *)
Theorem momentum_dataset_contract (nc_open : FileSystem) (fileName : string)
  (status status' : option LoadStatus.t) (mesh : Mesh.t) (ncid : NcFile) :
  loadSWW nc_open fileName status = Done (Some mesh, status') ->
  nc_open fileName = Some ncid ->
  status' = option_map LoadStatus.clear status /\
  ((exists mds, Mesh.dataSet mesh "Momentum" = Some mds) <->
   (exists ix iy, nc_inq_varid ncid "xmomentum" = Some ix /\
                  nc_inq_varid ncid "ymomentum" = Some iy)) /\
  forall mds,
    Mesh.dataSet mesh "Momentum" = Some mds ->
    DataSet.type mds = DataSet.Vector /\
    exists ds,
      Mesh.dataSet mesh "Depth" = Some ds /\
      List.length (DataSet.outputs mds) = List.length (DataSet.outputs ds) /\
      forall t mto,
        nth_error (DataSet.outputs mds) t = Some mto ->
        (exists dto, nth_error (DataSet.outputs ds) t = Some dto /\
                     Output.active mto = Output.active dto) /\
        (forall n xrow yrow xv yv,
            row ncid "xmomentum" t = Some xrow -> nth_error xrow n = Some xv ->
            row ncid "ymomentum" t = Some yrow -> nth_error yrow n = Some yv ->
            nth_error (Output.valuesV mto) n = Some (xv, yv) /\
            nth_error (Output.values mto) n =
            Some (F32.sqrt (F32.add (F32.mul xv xv) (F32.mul yv yv)))).
Proof.
  intros Hload Hopen.
  destruct (loaded_from _ _ _ _ _ _ Hload Hopen)
    as (d & v & md & Hd & Hver & Hv & Hmd & Hres & Hstatus).
  destruct (get_dimensions_Some _ _ Hd) as (_ & _ & Hnpts & _).
  destruct (load_results_Done _ _ _ _ _ _ Hres)
    as (times & tos & rest & _ & Htos & _ & _ & Hds & Hrest).
  destruct (dataSet_by_name _ _ _ _ _ Hds) as (_ & Hdepth & Hmom).
  split; [assumption|].
  destruct Hrest as [(-> & Habsent)|(mx & my & mtos & Hmx & Hmy & Hmtos & ->)].
  - (* no momentum dataset *)
    simpl in Hmom. split.
    + split.
      * intros (mds & Hmds). congruence.
      * intros (ix & iy & Hix & Hiy). destruct Habsent; congruence.
    + intros mds Hmds. congruence.
  - simpl in Hmom. rewrite momentum_dataset_name in Hmom. simpl in Hmom.
    split.
    + split; eauto.
    + intros mds Hmds. rewrite Hmom in Hmds; injection Hmds as <-.
      destruct (momentum_outputs_Done _ _ _ _ _ _ _ _ _ _ Hmtos)
        as (Hlen & Hnth).
      split.
      { unfold momentum_dataset.
        now destruct (addOutputs_fields mtos
          (DataSet.setIsTimeVarying true
             (DataSet.setName "Momentum"
                (DataSet.setType DataSet.Vector (DataSet.new fileName)))))
          as (-> & _ & _). }
      exists (depth_dataset fileName tos).
      rewrite momentum_dataset_outputs, depth_dataset_outputs.
      split; [assumption|]. split.
      { rewrite Hlen. symmetry. apply (mapM_length _ _ _ Htos). }
      intros t mto Hmto.
      destruct (Hnth _ _ Hmto)
        as (t' & dto & bX & bY & vx & vy
            & Ht' & Hdto & HbX & _ & Hvx & Hvy & _ & HvaluesV & Hvalues
            & Hactive).
      rewrite nth_error_seq in Ht'.
      destruct (t <? nTimesteps d)%nat; [|discriminate].
      injection Ht' as <-. simpl in Hdto.
      rewrite depth_dataset_outputs in Hdto.
      split; [eauto|].
      intros n xrow yrow xv yv Hxrow Hxv Hyrow Hyv.
      rewrite (row_id _ _ _ _ _ Hmx Hnpts) in Hxrow.
      rewrite (row_id _ _ _ _ _ Hmy Hnpts) in Hyrow.
      rewrite Hxrow in Hvx. rewrite Hyrow in Hvy.
      assert (Hn : (n < nPoints d)%nat).
      { apply write_buffer_Done in Hvx as [Hle _].
        rewrite HbX, repeat_length in Hle.
        assert (n < List.length xrow)%nat
          by (apply nth_error_Some; congruence).
        lia. }
      rewrite Hvalues, HvaluesV.
      rewrite map_map, !nth_error_map_seq by assumption.
      rewrite (read_unchecked_nth _ _ _ _ _ F32.zero Hvx Hxv).
      rewrite (read_unchecked_nth _ _ _ _ _ F32.zero Hvy Hyv).
      split; reflexivity.
Qed.

(** On the pond: at timestep 0 node 0 carries the momentum (3, 4), of
    magnitude 5, and the active flags are those of the depth output. *)
Lemma momentum_dataset_contract_pond :
  exists mds mto,
    Mesh.dataSet pond_mesh "Momentum" = Some mds /\
    DataSet.type mds = DataSet.Vector /\
    List.length (DataSet.outputs mds) = 2%nat /\
    nth_error (DataSet.outputs mds) 0 = Some mto /\
    Output.active mto = [true; true] /\
    nth_error (Output.valuesV mto) 0 = Some (F32.of_Z 3, F32.of_Z 4) /\
    nth_error (Output.values mto) 0 = Some (F32.of_Z 5).
Proof.
  destruct (momentum_dataset_contract (single "pond.sww" pond) "pond.sww"
              (Some stale) (Some (LoadStatus.clear stale)) pond_mesh
              (open_container pond))
    as (_ & Hiff & Hmds); try (vm_compute; reflexivity).
  destruct (proj2 Hiff) as (mds & Hfound).
  { exists 6%Z, 7%Z. split; reflexivity. }
  destruct (Hmds mds Hfound) as (Htype & ds & Hds & Hlen & Hout).
  vm_compute in Hfound. injection Hfound as <-.
  vm_compute in Hds. injection Hds as <-.
  eexists; eexists.
  split; [reflexivity|]. split; [exact Htype|]. split; [exact Hlen|].
  split; [reflexivity|].
  destruct (Hout 0%nat _ eq_refl) as ((dto & Hdto & Hactive) & Hvalues).
  injection Hdto as <-.
  split; [exact Hactive|].
  apply (Hvalues 0%nat (floats [3; 0; 0; 0]%Z) (floats [4; 0; 0; 0]%Z)
                 (F32.of_Z 3) (F32.of_Z 4)); reflexivity.
Defined.

(** The scenario of the specification has no momentum variable: it loads,
    with two datasets. *)
Lemma scenario_without_momentum :
  loadSWW (single "scenario.sww" scenario) "scenario.sww" (Some stale)
    = Done (Some scenario_mesh, Some (LoadStatus.clear stale)) /\
  map DataSet.name (Mesh.dataSets scenario_mesh) = ["Bed Elevation"; "Depth"].
Proof. split; vm_compute; reflexivity. Qed.

(* ------------------------------------------------------------------ *)
(** ** Rejected containers *)

Lemma unknown_format_cleared (status : option LoadStatus.t) :
  unknown_format (option_map LoadStatus.clear status) =
  Done (None,
        option_map (fun _ => {| LoadStatus.mLastError :=
                                  LoadStatus.Err_UnknownFormat |}) status).
Proof. destruct status; reflexivity. Qed.

(** C8.  A container whose [number_of_vertices] is not 3, or in which one
    of the four dimensions or of the six variables ([stage] among them)
    cannot be found, is refused: no mesh, and [Err_UnknownFormat] in the
    status object. *)
Theorem schema_rejected (nc_open : FileSystem) (fileName : string)
  (status : option LoadStatus.t) (ncid : NcFile) :
  nc_open fileName = Some ncid ->
  (exists n, dimension ncid "number_of_vertices" = Some n /\ n <> 3%nat) \/
  (exists name, In name required_dimensions /\ dimension ncid name = None) \/
  (exists name, In name required_variables /\
                nc_inq_varid ncid name = None) ->
  loadSWW nc_open fileName status =
  Done (None,
        option_map (fun _ => {| LoadStatus.mLastError :=
                                  LoadStatus.Err_UnknownFormat |}) status).
Proof.
  intros Hopen Hbad.
  rewrite <- unknown_format_cleared.
  unfold loadSWW. rewrite Hopen.
  destruct (get_dimensions ncid) as [d|] eqn:Hd; [|reflexivity].
  destruct (get_dimensions_Some _ _ Hd) as (_ & Hver & _).
  destruct (nVertices d =? 3)%nat eqn:Hthree; simpl; [|reflexivity].
  apply Nat.eqb_eq in Hthree.
  destruct Hbad as [(n & Hn & Hne)|[(name & Hin & Hnone)|(name & Hin & Hnone)]].
  - rewrite Hver in Hn; injection Hn as <-. contradiction.
  - rewrite (get_dimensions_missing _ _ Hin Hnone) in Hd. discriminate.
  - now rewrite (get_variables_missing _ _ Hin Hnone).
Qed.

(** Quadrilaterals are refused, and so is the pond without [stage]. *)
Lemma schema_rejected_quads_stageless :
  loadSWW (single "quads.sww" quads) "quads.sww" (Some stale) =
    Done (None, Some {| LoadStatus.mLastError := LoadStatus.Err_UnknownFormat |})
  /\
  loadSWW (single "stageless.sww" stageless) "stageless.sww" None =
    Done (None, None).
Proof.
  split.
  - apply (schema_rejected (single "quads.sww" quads) "quads.sww"
             (Some stale) (open_container quads)); [reflexivity|].
    left. exists 4%nat. split; [reflexivity | discriminate].
  - apply (schema_rejected (single "stageless.sww" stageless) "stageless.sww"
             None (open_container stageless)); [reflexivity|].
    right; right. exists "stage". split; [|reflexivity].
    simpl; auto 10.
Defined.

(* ------------------------------------------------------------------ *)
(** ** Failing reads *)

(** The reads of the mesh data are tested: when they end on a failure, the
    container is refused. *)
Lemma mesh_data_failure_reported (nc_open : FileSystem) (fileName : string)
  (status : option LoadStatus.t) (ncid : NcFile) (d : Dimensions)
  (v : Variables) :
  nc_open fileName = Some ncid ->
  get_dimensions ncid = Some d -> nVertices d = 3%nat ->
  get_variables ncid = Some v ->
  load_mesh_data ncid d v = Done None ->
  loadSWW nc_open fileName status =
  Done (None,
        option_map (fun _ => {| LoadStatus.mLastError :=
                                  LoadStatus.Err_UnknownFormat |}) status).
Proof.
  intros Hopen Hd Hver Hv Hmd.
  rewrite <- unknown_format_cleared.
  unfold loadSWW. rewrite Hopen, Hd, Hver, Hv, Hmd. reflexivity.
Qed.

(** The reads that follow are not: once the mesh data is read, no outcome of
    the [time], [stage] and momentum reads makes the load return without a
    mesh. *)
Lemma later_failures_unreported (nc_open : FileSystem) (fileName : string)
  (status status' : option LoadStatus.t) (ncid : NcFile) (d : Dimensions)
  (v : Variables) (md : MeshData) :
  nc_open fileName = Some ncid ->
  get_dimensions ncid = Some d -> nVertices d = 3%nat ->
  get_variables ncid = Some v ->
  load_mesh_data ncid d v = Done (Some md) ->
  loadSWW nc_open fileName status <> Done (None, status').
Proof.
  intros Hopen Hd Hver Hv Hmd.
  unfold loadSWW. rewrite Hopen, Hd, Hver, Hv, Hmd. simpl.
  destruct (load_results ncid fileName d v md); simpl; discriminate.
Qed.

(** C1, at the rowless container: the read of the [stage] row of timestep 0
    fails, and [loadSWW] returns a mesh and a status without error; the
    depths of that mesh are those of a stage of 0 under a bed at 2. *)
Theorem stage_read_failure_unreported :
  row (open_container rowless) "stage" 0 = None /\
  loadSWW (single "rowless.sww" rowless) "rowless.sww" (Some stale) =
    Done (Some rowless_mesh,
          Some {| LoadStatus.mLastError := LoadStatus.Err_None |}) /\
  exists ds out,
    Mesh.dataSet rowless_mesh "Depth" = Some ds /\
    DataSet.outputs ds = [out] /\
    Output.values out = floats [-2; -2; -2]%Z.
Proof.
  split; [reflexivity|]. split; [vm_compute; reflexivity|].
  eexists; eexists. split; [reflexivity|]. split; reflexivity.
Qed.

(* ------------------------------------------------------------------ *)
(** ** No timestep *)

(** C10, as the specification has it, fails: the [time] buffer is sized
    from [number_of_timesteps] and the whole [time] variable is read into it
    without a look at its extent.  The still pond with a [time] of one value
    passes every check, has its mesh data, attributes and elements within
    bounds and announces no timestep; the read of [time] then stores a value
    in a vector of no cell, and the run is undefined instead of returning a
    mesh. *)
Lemma timed_still_leaves_the_time_buffer :
  ~ (forall nc_open fileName status ncid d v md,
        nc_open fileName = Some ncid ->
        get_dimensions ncid = Some d -> nVertices d = 3%nat ->
        get_variables ncid = Some v ->
        load_mesh_data ncid d v = Done (Some md) ->
        read_corner ncid "xllcorner" = Done tt ->
        read_corner ncid "yllcorner" = Done tt ->
        elements_fit_int (nVolumes d) = true ->
        nTimesteps d = 0%nat ->
        exists mesh,
          loadSWW nc_open fileName status =
          Done (Some mesh, option_map LoadStatus.clear status)).
Proof.
  intros H.
  destruct (H (single "timed.sww" timed_still) "timed.sww" (Some stale)
              (open_container timed_still)
              {| nVolumes := 2; nVertices := 3; nPoints := 4; nTimesteps := 0 |}
              {| xid := 0; yid := 1; zid := 2; volumesid := 3; timeid := 4;
                 stageid := 5 |}
              {| px := floats [0; 1; 1; 0]%Z; py := floats [0; 0; 1; 1]%Z;
                 pz := floats [0; 0; 1; 1]%Z;
                 pvolumes := [0; 1; 2; 0; 2; 3]%Z |})
    as (mesh & Hmesh); try (vm_compute; reflexivity).
  vm_compute in Hmesh. discriminate.
Qed.

(** C10, amended.  A container that passes the checks on dimensions and
    variables and the loading of the geometry (the mesh data is read, the
    corner attributes hold one value at most, the element loop stays within
    [int]), that has no timestep, and whose [time] variable is read as
    empty, or not read at all, is loaded: a mesh is returned, no error is
    recorded, and the "Depth" dataset, and the "Momentum" dataset when both
    momentum variables are there, is time-varying and has no output. *)
Theorem no_timesteps (nc_open : FileSystem) (fileName : string)
  (status : option LoadStatus.t) (ncid : NcFile) (d : Dimensions)
  (v : Variables) (md : MeshData) :
  nc_open fileName = Some ncid ->
  get_dimensions ncid = Some d -> nVertices d = 3%nat ->
  get_variables ncid = Some v ->
  load_mesh_data ncid d v = Done (Some md) ->
  read_corner ncid "xllcorner" = Done tt ->
  read_corner ncid "yllcorner" = Done tt ->
  elements_fit_int (nVolumes d) = true ->
  nTimesteps d = 0%nat ->
  fits (nc_get_var_float ncid (timeid v)) (nTimesteps d) = true ->
  exists mesh ds,
    loadSWW nc_open fileName status =
      Done (Some mesh, option_map LoadStatus.clear status) /\
    Mesh.dataSet mesh "Depth" = Some ds /\
    DataSet.outputs ds = [] /\
    DataSet.isTimeVarying ds = true /\
    ((exists ix iy, nc_inq_varid ncid "xmomentum" = Some ix /\
                    nc_inq_varid ncid "ymomentum" = Some iy) ->
     exists mds,
       Mesh.dataSet mesh "Momentum" = Some mds /\
       DataSet.outputs mds = [] /\
       DataSet.isTimeVarying mds = true).
Proof.
  intros Hopen Hd Hver Hv Hmd Hcx Hcy Helems Hzero Hfits.
  assert (Htimes : exists times,
             read_unchecked (nc_get_var_float ncid (timeid v))
                            (repeat F32.zero (nTimesteps d)) = Done times).
  { destruct (nc_get_var_float ncid (timeid v)) as [data|]; simpl in *.
    - rewrite write_buffer_fits by (now rewrite repeat_length). eauto.
    - eauto. }
  destruct Htimes as (times & Htimes).
  assert (Hint : fits_int (nTimesteps d) = true) by (now rewrite Hzero).
  unfold loadSWW. rewrite Hopen, Hd, Hver, Hv, Hmd. simpl.
  unfold load_results. rewrite Hcx, Hcy. simpl.
  rewrite Helems, Hint. simpl.
  rewrite Htimes, Hzero. simpl.
  destruct (nc_inq_varid ncid "xmomentum") as [mx|] eqn:Hmx;
    [destruct (nc_inq_varid ncid "ymomentum") as [my|] eqn:Hmy|]; simpl;
    eexists; eexists;
    (split; [reflexivity|]);
    (split; [reflexivity|]);
    (split; [reflexivity|]);
    (split; [reflexivity|]).
  - intros _. eexists. split; [reflexivity|]. split; reflexivity.
  - intros (ix & iy & _ & Hiy). discriminate.
  - intros (ix & iy & Hix & _). discriminate.
Qed.

Lemma no_timesteps_still :
  exists mesh ds mds,
    loadSWW (single "still.sww" still) "still.sww" (Some stale) =
      Done (Some mesh, Some (LoadStatus.clear stale)) /\
    Mesh.dataSet mesh "Depth" = Some ds /\
    DataSet.outputs ds = [] /\ DataSet.isTimeVarying ds = true /\
    Mesh.dataSet mesh "Momentum" = Some mds /\
    DataSet.outputs mds = [] /\ DataSet.isTimeVarying mds = true.
Proof.
  destruct (no_timesteps (single "still.sww" still) "still.sww" (Some stale)
              (open_container still)
              {| nVolumes := 2; nVertices := 3; nPoints := 4; nTimesteps := 0 |}
              {| xid := 0; yid := 1; zid := 2; volumesid := 3; timeid := 4;
                 stageid := 5 |}
              {| px := floats [0; 1; 1; 0]%Z; py := floats [0; 0; 1; 1]%Z;
                 pz := floats [0; 0; 1; 1]%Z;
                 pvolumes := [0; 1; 2; 0; 2; 3]%Z |})
    as (mesh & ds & Hload & Hds & Hout & Hvarying & Hmom);
    try (vm_compute; reflexivity).
  destruct Hmom as (mds & Hmds & Hmout & Hmvarying).
  { exists 6%Z, 7%Z. split; reflexivity. }
  exists mesh, ds, mds. auto 10.
Defined.

(* ------------------------------------------------------------------ *)
(** ** The status object *)

(** What the caller finds in the status object after a return: no error
    beside a mesh, [Err_UnknownFormat] beside a null pointer. *)
Lemma loadSWW_status (nc_open : FileSystem) (fileName : string)
  (status : option LoadStatus.t) :
  loadSWW nc_open fileName status =
  match loadSWW nc_open fileName None with
  | Done (m, _) =>
      Done (m, option_map
                 (fun _ => {| LoadStatus.mLastError :=
                                match m with
                                | Some _ => LoadStatus.Err_None
                                | None => LoadStatus.Err_UnknownFormat
                                end |}) status)
  | Undefined => Undefined
  end.
Proof.
  unfold loadSWW.
  destruct (nc_open fileName) as [ncid|];
    [|destruct status; reflexivity].
  destruct (get_dimensions ncid) as [d|];
    [|destruct status; reflexivity].
  destruct (negb (nVertices d =? 3)%nat);
    [destruct status; reflexivity|].
  destruct (get_variables ncid) as [v|];
    [|destruct status; reflexivity].
  destruct (load_mesh_data ncid d v) as [[md|]|]; simpl;
    [|destruct status; reflexivity|reflexivity].
  destruct (load_results ncid fileName d v md); simpl;
    [destruct status; reflexivity|reflexivity].
Qed.

(** The status object and the result agree, and the status object is only
    written to: a return with the mesh [m] (null or not) leaves
    [Err_UnknownFormat] in the status object exactly when [m] is null and no
    error otherwise, whatever the object held before; and the same call with
    a null [status] returns the same [m]. *)
Theorem status_agrees_with_result (nc_open : FileSystem) (fileName : string)
  (status status' : option LoadStatus.t) (m : option Mesh.t) :
  loadSWW nc_open fileName status = Done (m, status') ->
  status' =
    option_map
      (fun _ => {| LoadStatus.mLastError :=
                     match m with
                     | Some _ => LoadStatus.Err_None
                     | None => LoadStatus.Err_UnknownFormat
                     end |}) status /\
  loadSWW nc_open fileName None = Done (m, None).
Proof.
  intros H. rewrite loadSWW_status in H.
  destruct (loadSWW nc_open fileName None) as [[m0 st0]|] eqn:Hnone;
    [|discriminate].
  injection H as <- <-.
  split; [reflexivity|].
  rewrite loadSWW_status in Hnone.
  destruct (loadSWW nc_open fileName None) as [[m1 st1]|]; [|discriminate].
  injection Hnone as <- <-. reflexivity.
Qed.

Lemma status_agrees_with_result_pond :
  Some (LoadStatus.clear stale) =
    Some {| LoadStatus.mLastError := LoadStatus.Err_None |} /\
  loadSWW (single "pond.sww" pond) "pond.sww" None = Done (Some pond_mesh, None).
Proof.
  apply (status_agrees_with_result (single "pond.sww" pond) "pond.sww"
           (Some stale) (Some (LoadStatus.clear stale)) (Some pond_mesh)).
  vm_compute; reflexivity.
Defined.

(* ------------------------------------------------------------------ *)
(** ** Why a container is refused *)

Ltac name_missing name :=
  exists name; split;
  [ simpl; auto 10
  | unfold dimension;
    repeat match goal with H : _ = _ |- _ => rewrite H end; reflexivity ].

Lemma get_dimensions_None (ncid : NcFile) :
  get_dimensions ncid = None ->
  exists name, In name required_dimensions /\ dimension ncid name = None.
Proof.
  unfold get_dimensions; intros H.
  repeat case_scrutinee H;
    first [ name_missing "number_of_volumes"
          | name_missing "number_of_vertices"
          | name_missing "number_of_points"
          | name_missing "number_of_timesteps" ].
Qed.

Lemma get_variables_None (ncid : NcFile) :
  get_variables ncid = None ->
  exists name, In name required_variables /\ nc_inq_varid ncid name = None.
Proof.
  unfold get_variables; intros H.
  repeat case_scrutinee H;
    first [ name_missing "x" | name_missing "y" | name_missing "z"
          | name_missing "volumes" | name_missing "time"
          | name_missing "stage" ].
Qed.

Lemma load_mesh_data_None (ncid : NcFile) (d : Dimensions) (v : Variables) :
  load_mesh_data ncid d v = Done None ->
  nc_get_var_float ncid (xid v) = None \/
  nc_get_var_float ncid (yid v) = None \/
  nc_get_var_float ncid (zid v) = None \/
  nc_get_var_int ncid (volumesid v) = None.
Proof.
  unfold load_mesh_data; intros H.
  destruct (fits_int (nPoints d)); simpl in H; [|discriminate].
  destruct (nc_get_var_float ncid (xid v)) as [dx|]; [|auto].
  apply bind_Done in H as ([bx|] & Hx & H).
  2:{ exfalso. simpl in Hx. apply bind_Done in Hx as (b & _ & Hx).
      discriminate. }
  destruct (nc_get_var_float ncid (yid v)) as [dy|]; [|auto].
  apply bind_Done in H as ([by_|] & Hy & H).
  2:{ exfalso. simpl in Hy. apply bind_Done in Hy as (b & _ & Hy).
      discriminate. }
  destruct (nc_get_var_float ncid (zid v)) as [dz|]; [|auto].
  apply bind_Done in H as ([bz|] & Hz & H).
  2:{ exfalso. simpl in Hz. apply bind_Done in Hz as (b & _ & Hz).
      discriminate. }
  destruct (nc_get_var_int ncid (volumesid v)) as [vols|]; [|auto 10].
  destruct (List.length vols =? nVertices d * nVolumes d)%nat; discriminate.
Qed.

(** A null result has one of these causes and no other: the path does not
    open, a required dimension or variable is not found, the elements are
    not triangles, or the whole read of [x], [y], [z] or [volumes] fails.  In
    particular neither the momentum variables nor any read of [time],
    [stage] or the momentum rows ever makes the loader return null. *)
Theorem refusal_causes (nc_open : FileSystem) (fileName : string)
  (status status' : option LoadStatus.t) :
  loadSWW nc_open fileName status = Done (None, status') ->
  nc_open fileName = None \/
  exists ncid,
    nc_open fileName = Some ncid /\
    ((exists name, In name required_dimensions /\
                   dimension ncid name = None) \/
     (exists n, dimension ncid "number_of_vertices" = Some n /\ n <> 3%nat) \/
     (exists name, In name required_variables /\
                   nc_inq_varid ncid name = None) \/
     (exists name, In name ["x"; "y"; "z"] /\
                   float_variable ncid name = None) \/
     int_variable ncid "volumes" = None).
Proof.
  unfold loadSWW; intros H.
  destruct (nc_open fileName) as [ncid|]; [right; exists ncid|left; reflexivity].
  split; [reflexivity|].
  destruct (get_dimensions ncid) as [d|] eqn:Hd;
    [|left; now apply get_dimensions_None].
  destruct (get_dimensions_Some _ _ Hd) as (_ & Hver & _).
  destruct (nVertices d =? 3)%nat eqn:Hthree; simpl in H.
  2:{ right; left. exists (nVertices d). split; [assumption|].
      now apply Nat.eqb_neq. }
  destruct (get_variables ncid) as [v|] eqn:Hv;
    [|right; right; left; now apply get_variables_None].
  destruct (get_variables_Some _ _ Hv) as (Hx & Hy & Hz & Hvol & _).
  right; right; right.
  apply bind_Done in H as ([md|] & Hmd & H).
  { apply bind_Done in H as (mesh & _ & H). discriminate. }
  destruct (load_mesh_data_None _ _ _ Hmd) as [Hf|[Hf|[Hf|Hf]]].
  - left. exists "x". split; [simpl; auto|].
    now rewrite (float_variable_id _ _ _ Hx).
  - left. exists "y". split; [simpl; auto|].
    now rewrite (float_variable_id _ _ _ Hy).
  - left. exists "z". split; [simpl; auto|].
    now rewrite (float_variable_id _ _ _ Hz).
  - right. now rewrite (int_variable_id _ _ _ Hvol).
Qed.

(** The torn pond is refused, and the cause found is its [volumes] read;
    the path beside it is refused because it does not open. *)
Lemma refusal_causes_torn :
  int_variable torn "volumes" = None /\
  (torn_only "torn.sww" = None \/
   exists ncid,
     torn_only "torn.sww" = Some ncid /\
     ((exists name, In name required_dimensions /\
                    dimension ncid name = None) \/
      (exists n, dimension ncid "number_of_vertices" = Some n /\ n <> 3%nat) \/
      (exists name, In name required_variables /\
                    nc_inq_varid ncid name = None) \/
      (exists name, In name ["x"; "y"; "z"] /\
                    float_variable ncid name = None) \/
      int_variable ncid "volumes" = None)).
Proof.
  split; [reflexivity|].
  apply (refusal_causes torn_only "torn.sww" (Some stale)
           (Some {| LoadStatus.mLastError := LoadStatus.Err_UnknownFormat |})).
  vm_compute; reflexivity.
Defined.

(** The other way round: a path that does not open is refused, and so is a
    container that passes the checks on dimensions and variables, whose
    number of points fits the [int] that sizes [px], [py] and [pz], and whose
    whole read of [x], [y], [z] or [volumes] fails, the reads before it
    having delivered no more than one value per point. *)
Theorem unreadable_rejected (nc_open : FileSystem) (fileName : string)
  (status : option LoadStatus.t) :
  (nc_open fileName = None \/
   exists ncid d v,
     nc_open fileName = Some ncid /\
     get_dimensions ncid = Some d /\ nVertices d = 3%nat /\
     get_variables ncid = Some v /\
     fits_int (nPoints d) = true /\
     (nc_get_var_float ncid (xid v) = None \/
      fits (nc_get_var_float ncid (xid v)) (nPoints d) = true /\
      (nc_get_var_float ncid (yid v) = None \/
       fits (nc_get_var_float ncid (yid v)) (nPoints d) = true /\
       (nc_get_var_float ncid (zid v) = None \/
        fits (nc_get_var_float ncid (zid v)) (nPoints d) = true /\
        nc_get_var_int ncid (volumesid v) = None)))) ->
  loadSWW nc_open fileName status =
  Done (None,
        option_map (fun _ => {| LoadStatus.mLastError :=
                                  LoadStatus.Err_UnknownFormat |}) status).
Proof.
  intros [Hopen|(ncid & d & v & Hopen & Hd & Hver & Hv & Hint & Hread)].
  - rewrite <- unknown_format_cleared. unfold loadSWW. now rewrite Hopen.
  - apply (mesh_data_failure_reported _ _ _ _ _ _ Hopen Hd Hver Hv).
    unfold load_mesh_data. rewrite Hint. simpl.
    assert (Hfill : forall r, fits r (nPoints d) = true -> r <> None ->
              exists b, read_checked r (repeat F32.zero (nPoints d))
                        = Done (Some b)).
    { intros [data|] Hfit Hsome; [|congruence]. simpl in *.
      rewrite write_buffer_fits by (now rewrite repeat_length).
      simpl. eauto. }
    destruct Hread as [Hx|(Hfx & Hread)]; [now rewrite Hx|].
    destruct (nc_get_var_float ncid (xid v)) as [dx|] eqn:Hx; [|reflexivity].
    destruct (Hfill _ Hfx) as (bx & ->); [discriminate|]. simpl.
    destruct Hread as [Hy|(Hfy & Hread)]; [now rewrite Hy|].
    destruct (nc_get_var_float ncid (yid v)) as [dy|] eqn:Hy; [|reflexivity].
    destruct (Hfill _ Hfy) as (by_ & ->); [discriminate|]. simpl.
    destruct Hread as [Hz|(Hfz & Hvol)]; [now rewrite Hz|].
    destruct (nc_get_var_float ncid (zid v)) as [dz|] eqn:Hz; [|reflexivity].
    destruct (Hfill _ Hfz) as (bz & ->); [discriminate|]. simpl.
    now rewrite Hvol.
Qed.

Lemma unreadable_rejected_torn :
  loadSWW torn_only "torn.sww" (Some stale) =
    Done (None, Some {| LoadStatus.mLastError := LoadStatus.Err_UnknownFormat |})
  /\
  loadSWW torn_only "pond.sww" None = Done (None, None).
Proof.
  split.
  - apply (unreadable_rejected torn_only "torn.sww" (Some stale)).
    right.
    exists torn,
      {| nVolumes := 2; nVertices := 3; nPoints := 4; nTimesteps := 2 |},
      {| xid := 0; yid := 1; zid := 2; volumesid := 3; timeid := 4;
         stageid := 5 |}.
    repeat (split; [reflexivity|]).
    right. split; [reflexivity|].
    right. split; [reflexivity|].
    right. split; reflexivity.
  - apply (unreadable_rejected torn_only "pond.sww" None).
    left. reflexivity.
Defined.

(* ------------------------------------------------------------------ *)
(** ** The shape of a returned mesh *)

Lemma addOutputs_header (os : list Output.t) (d : DataSet.t) :
  (DataSet.name (addOutputs os d), DataSet.type (addOutputs os d),
   DataSet.isTimeVarying (addOutputs os d), DataSet.fileName (addOutputs os d))
  = (DataSet.name d, DataSet.type d, DataSet.isTimeVarying d,
     DataSet.fileName d).
Proof.
  unfold addOutputs. revert d; induction os as [|o os IH]; intros d; simpl.
  - reflexivity.
  - now rewrite IH.
Qed.

(** The datasets of a returned mesh, in creation order: the bed elevation,
    the depth, and the momentum when the container has both momentum
    variables; each with its name, type and time-varying flag, and each
    carrying the name of the file. *)
Theorem dataset_roster (nc_open : FileSystem) (fileName : string)
  (status status' : option LoadStatus.t) (mesh : Mesh.t) (ncid : NcFile) :
  loadSWW nc_open fileName status = Done (Some mesh, status') ->
  nc_open fileName = Some ncid ->
  map (fun ds => (DataSet.name ds, DataSet.type ds, DataSet.isTimeVarying ds,
                  DataSet.fileName ds))
      (Mesh.dataSets mesh)
  = [("Bed Elevation", DataSet.Bed, false, fileName);
     ("Depth", DataSet.Scalar, true, fileName)]
    ++ match nc_inq_varid ncid "xmomentum", nc_inq_varid ncid "ymomentum" with
       | Some _, Some _ => [("Momentum", DataSet.Vector, true, fileName)]
       | _, _ => []
       end.
Proof.
  intros Hload Hopen.
  destruct (loaded_from _ _ _ _ _ _ Hload Hopen)
    as (d & v & md & _ & _ & _ & _ & Hres & _).
  destruct (load_results_Done _ _ _ _ _ _ Hres)
    as (times & tos & rest & _ & _ & _ & _ & Hds & Hrest).
  rewrite Hds. simpl. unfold depth_dataset. rewrite addOutputs_header. simpl.
  do 2 f_equal.
  destruct Hrest as [(-> & [Hx|Hy])|(mx & my & mtos & Hmx & Hmy & _ & ->)].
  - now rewrite Hx.
  - rewrite Hy. now destruct (nc_inq_varid ncid "xmomentum").
  - rewrite Hmx, Hmy. simpl. unfold momentum_dataset.
    now rewrite addOutputs_header.
Qed.

Lemma dataset_roster_pond_scenario :
  map DataSet.name (Mesh.dataSets pond_mesh)
    = ["Bed Elevation"; "Depth"; "Momentum"] /\
  map (fun ds => (DataSet.name ds, DataSet.type ds, DataSet.isTimeVarying ds,
                  DataSet.fileName ds))
      (Mesh.dataSets scenario_mesh)
  = [("Bed Elevation", DataSet.Bed, false, "scenario.sww");
     ("Depth", DataSet.Scalar, true, "scenario.sww")].
Proof.
  split.
  - pose proof (dataset_roster (single "pond.sww" pond) "pond.sww"
                  (Some stale) (Some (LoadStatus.clear stale)) pond_mesh
                  (open_container pond)) as H.
    apply (f_equal (map (fun h => fst (fst (fst h))))) in H;
      [|vm_compute; reflexivity|vm_compute; reflexivity].
    rewrite map_map in H. exact H.
  - apply (dataset_roster (single "scenario.sww" scenario) "scenario.sww"
             None None scenario_mesh (open_container scenario));
      vm_compute; reflexivity.
Defined.

Lemma depth_output_valuesV (ncid : NcFile) (d : Dimensions) (v : Variables)
  (times elev : list float) (elements : list Element.t) (t : nat)
  (out : Output.t) :
  depth_output ncid d v times elev elements t = Done out ->
  Output.valuesV out = [].
Proof.
  unfold depth_output; intros H.
  apply bind_Done in H as (stage & _ & H).
  apply bind_Done in H as (act & _ & H).
  injection H as <-. reflexivity.
Qed.

(** The outputs of the depth loop have one scalar per point, one flag per
    element and no vector. *)
Lemma depth_outputs_sized (ncid : NcFile) (d : Dimensions) (v : Variables)
  (times elev : list float) (elements : list Element.t)
  (tos : list Output.t) (out : Output.t) :
  mapM (depth_output ncid d v times elev elements) (seq 0 (nTimesteps d))
    = Done tos ->
  In out tos ->
  List.length (Output.values out) = nPoints d /\
  List.length (Output.active out) = List.length elements /\
  Output.valuesV out = [].
Proof.
  intros Htos Hin.
  apply In_nth_error in Hin as (t & Hout).
  destruct (depth_loop_nth _ _ _ _ _ _ _ _ _ Htos Hout) as (_ & Hdo).
  destruct (depth_output_Done _ _ _ _ _ _ _ _ Hdo)
    as (stage & _ & _ & Hvalues & Hact).
  split; [|split].
  - now rewrite Hvalues, length_map, length_seq.
  - apply (mapM_length _ _ _ Hact).
  - apply (depth_output_valuesV _ _ _ _ _ _ _ _ Hdo).
Qed.

(** Every output of every dataset of a returned mesh is sized to the mesh:
    one scalar per node, one active flag per element, and one vector per
    node in a dataset of type Vector, none in the others. *)
Theorem output_arrays_sized (nc_open : FileSystem) (fileName : string)
  (status status' : option LoadStatus.t) (mesh : Mesh.t) :
  loadSWW nc_open fileName status = Done (Some mesh, status') ->
  Forall
    (fun ds =>
       Forall
         (fun o =>
            List.length (Output.values o) = List.length (Mesh.nodes mesh) /\
            List.length (Output.active o) = List.length (Mesh.elements mesh) /\
            List.length (Output.valuesV o) =
              match DataSet.type ds with
              | DataSet.Vector => List.length (Mesh.nodes mesh)
              | _ => 0%nat
              end)
         (DataSet.outputs ds))
    (Mesh.dataSets mesh).
Proof.
  intros Hload.
  apply loadSWW_loaded in Hload
    as (ncid & d & v & md & _ & _ & _ & _ & Hmd & Hres & _).
  destruct (load_results_Done _ _ _ _ _ _ Hres)
    as (times & tos & rest & _ & Htos & Hnodes & Helems & Hds & Hrest).
  assert (Hn : List.length (Mesh.nodes mesh) = nPoints d)
    by (rewrite Hnodes; apply make_nodes_length).
  assert (He : List.length (Mesh.elements mesh) = nVolumes d)
    by (rewrite Helems; apply make_elements_length).
  rewrite Hds, Hn, He.
  assert (Hdepth : forall out, In out tos ->
            List.length (Output.values out) = nPoints d /\
            List.length (Output.active out) = nVolumes d /\
            Output.valuesV out = []).
  { intros out Hin.
    destruct (depth_outputs_sized _ _ _ _ _ _ _ _ Htos Hin) as (H1 & H2 & H3).
    rewrite make_elements_length in H2. auto. }
  constructor; [|constructor].
  - (* bed *)
    simpl. constructor; [|constructor]. simpl.
    now rewrite length_map, length_seq, repeat_length.
  - (* depth *)
    rewrite depth_dataset_outputs.
    assert (Hty : DataSet.type (depth_dataset fileName tos) = DataSet.Scalar).
    { unfold depth_dataset.
      pose proof (addOutputs_header tos
        (DataSet.setIsTimeVarying true
           (DataSet.setName "Depth"
              (DataSet.setType DataSet.Scalar (DataSet.new fileName))))) as Hh.
      now injection Hh. }
    rewrite Hty. apply Forall_forall. intros out Hin.
    destruct (Hdepth out Hin) as (H1 & H2 & H3).
    rewrite H3. auto.
  - (* momentum *)
    destruct Hrest as [(-> & _)|(mx & my & mtos & _ & _ & Hmtos & ->)];
      [constructor|].
    constructor; [|constructor].
    rewrite momentum_dataset_outputs.
    assert (Hty : DataSet.type (momentum_dataset fileName mtos)
                  = DataSet.Vector).
    { unfold momentum_dataset.
      pose proof (addOutputs_header mtos
        (DataSet.setIsTimeVarying true
           (DataSet.setName "Momentum"
              (DataSet.setType DataSet.Vector (DataSet.new fileName))))) as Hh.
      now injection Hh. }
    rewrite Hty.
    destruct (momentum_outputs_Done _ _ _ _ _ _ _ _ _ _ Hmtos) as (_ & Hnth).
    apply Forall_forall. intros mto Hin.
    apply In_nth_error in Hin as (i & Hi).
    destruct (Hnth _ _ Hi)
      as (t & dto & bX & bY & vx & vy & _ & Hdto & _ & _ & _ & _ & _
          & HvaluesV & Hvalues & Hactive).
    rewrite depth_dataset_outputs in Hdto.
    apply nth_error_In in Hdto.
    destruct (Hdepth dto Hdto) as (_ & H2 & _).
    rewrite Hvalues, Hactive, HvaluesV, !length_map, length_seq. auto.
Qed.

Lemma output_arrays_sized_pond :
  Forall
    (fun ds =>
       Forall
         (fun o =>
            List.length (Output.values o) = 4%nat /\
            List.length (Output.active o) = 2%nat /\
            List.length (Output.valuesV o) =
              match DataSet.type ds with
              | DataSet.Vector => 4%nat
              | _ => 0%nat
              end)
         (DataSet.outputs ds))
    (Mesh.dataSets pond_mesh).
Proof.
  apply (output_arrays_sized (single "pond.sww" pond) "pond.sww" (Some stale)
           (Some (LoadStatus.clear stale)) pond_mesh).
  vm_compute; reflexivity.
Defined.

(** The momentum output of a timestep carries the time of the depth output
    of the same timestep. *)
Theorem momentum_time_is_depth_time (nc_open : FileSystem) (fileName : string)
  (status status' : option LoadStatus.t) (mesh : Mesh.t)
  (ds mds : DataSet.t) (t : nat) (dto mto : Output.t) :
  loadSWW nc_open fileName status = Done (Some mesh, status') ->
  Mesh.dataSet mesh "Depth" = Some ds ->
  Mesh.dataSet mesh "Momentum" = Some mds ->
  nth_error (DataSet.outputs ds) t = Some dto ->
  nth_error (DataSet.outputs mds) t = Some mto ->
  Output.time mto = Output.time dto.
Proof.
  intros Hload Hds Hmds Hdto Hmto.
  apply loadSWW_loaded in Hload
    as (ncid & d & v & md & _ & _ & _ & _ & _ & Hres & _).
  destruct (load_results_Done _ _ _ _ _ _ Hres)
    as (times & tos & rest & _ & Htos & _ & _ & Hsets & Hrest).
  destruct (dataSet_by_name _ _ _ _ _ Hsets) as (_ & Hdepth & Hmom).
  rewrite Hdepth in Hds; injection Hds as <-.
  rewrite depth_dataset_outputs in Hdto.
  rewrite Hmom in Hmds.
  destruct Hrest as [(-> & _)|(mx & my & mtos & _ & _ & Hmtos & ->)];
    [discriminate|].
  simpl in Hmds. rewrite momentum_dataset_name in Hmds. simpl in Hmds.
  injection Hmds as <-. rewrite momentum_dataset_outputs in Hmto.
  destruct (momentum_outputs_Done _ _ _ _ _ _ _ _ _ _ Hmtos) as (_ & Hnth).
  destruct (Hnth _ _ Hmto)
    as (t' & dto' & bX & bY & vx & vy & Ht' & _ & _ & _ & _ & _ & Htime & _).
  rewrite nth_error_seq in Ht'.
  destruct (t <? nTimesteps d)%nat; [|discriminate].
  injection Ht' as <-.
  destruct (depth_loop_nth _ _ _ _ _ _ _ _ _ Htos Hdto) as (_ & Hdo).
  destruct (depth_output_Done _ _ _ _ _ _ _ _ Hdo) as (_ & _ & Hdtime & _).
  now rewrite Htime, Hdtime.
Qed.

Lemma momentum_time_is_depth_time_pond :
  exists mto dto,
    nth_error (DataSet.outputs (nth 2 (Mesh.dataSets pond_mesh)
                                      (DataSet.new ""))) 1 = Some mto /\
    nth_error (DataSet.outputs (nth 1 (Mesh.dataSets pond_mesh)
                                      (DataSet.new ""))) 1 = Some dto /\
    Output.time mto = F64.of_Z 2 /\
    Output.time mto = Output.time dto.
Proof.
  eexists; eexists.
  split; [reflexivity|]. split; [reflexivity|]. split; [reflexivity|].
  apply (momentum_time_is_depth_time (single "pond.sww" pond) "pond.sww"
           (Some stale) (Some (LoadStatus.clear stale)) pond_mesh
           (nth 1 (Mesh.dataSets pond_mesh) (DataSet.new ""))
           (nth 2 (Mesh.dataSets pond_mesh) (DataSet.new "")) 1%nat);
    vm_compute; reflexivity.
Defined.

(* ------------------------------------------------------------------ *)
(** ** Node indices *)

Lemma to_unsigned_range (v : Z) : (0 <= to_unsigned v < 2 ^ 32)%Z.
Proof. unfold to_unsigned. apply Z.mod_pos_bound. lia. Qed.

(** The cells of [pvolumes] that the element loop reads. *)
Lemma pvolumes_cell (md : MeshData) (vols : list Z) (j : nat) :
  pvolumes md = map to_unsigned vols ->
  (0 <= nth j (pvolumes md) 0 < 2 ^ 32)%Z.
Proof.
  intros ->.
  destruct (Nat.lt_ge_cases j (List.length (map to_unsigned vols)))
    as [Hlt|Hge].
  - apply (Forall_nth_in (fun k => (0 <= k < 2 ^ 32)%Z)); [|assumption].
    apply Forall_map, Forall_forall. intros k _. apply to_unsigned_range.
  - rewrite nth_overflow by assumption. lia.
Qed.

(** The elements the element loop makes. *)
Lemma make_elements_unsigned (md : MeshData) (vols : list Z) (n : nat) :
  pvolumes md = map to_unsigned vols ->
  Forall
    (fun elem =>
       Element.eType elem = Element.E3T /\
       List.length (Element.p elem) = 3%nat /\
       Forall (fun k => (0 <= k < 2 ^ 32)%Z) (Element.p elem))
    (make_elements md n).
Proof.
  intros Hpv. unfold make_elements.
  apply Forall_map, Forall_forall. intros i _. simpl.
  repeat split; try reflexivity.
  repeat constructor; apply (pvolumes_cell _ _ _ Hpv).
Qed.



(** With a timestep to decode, the depth loop looks the three depths of
    every element up through its node indices, and the lookup is not
    guarded: a run that stays within the depth array, and so returns a mesh,
    is one in which every node index names a node. *)
Theorem indices_in_range_with_timestep (nc_open : FileSystem)
  (fileName : string) (status status' : option LoadStatus.t) (mesh : Mesh.t)
  (ncid : NcFile) (nTs : nat) :
  loadSWW nc_open fileName status = Done (Some mesh, status') ->
  nc_open fileName = Some ncid ->
  dimension ncid "number_of_timesteps" = Some nTs ->
  (0 < nTs)%nat ->
  indices_in_range mesh.
Proof.
  intros Hload Hopen HnTs Hpos.
  destruct (loaded_from _ _ _ _ _ _ Hload Hopen)
    as (d & v & md & Hd & _ & _ & Hmd & Hres & _).
  destruct (get_dimensions_Some _ _ Hd) as (_ & _ & _ & Hnts).
  rewrite HnTs in Hnts; injection Hnts as ->.
  destruct (load_mesh_data_Some _ _ _ _ Hmd)
    as (dx & dy & dz & vs & _ & _ & _ & _ & _ & _ & _ & _ & Hpv).
  destruct (load_results_Done _ _ _ _ _ _ Hres)
    as (times & tos & rest & _ & Htos & Hnodes & Helems & _).
  pose proof (make_elements_unsigned md vs (nVolumes d) Hpv) as Hunsigned.
  rewrite <- Helems in Hunsigned.
  assert (Hfirst : exists out, nth_error tos 0 = Some out).
  { pose proof (mapM_length _ _ _ Htos) as Hlen.
    rewrite length_seq in Hlen.
    destruct tos as [|out tos']; simpl in *; [lia|eauto]. }
  destruct Hfirst as (out & Hout).
  destruct (depth_loop_nth _ _ _ _ _ _ _ _ _ Htos Hout) as (_ & Hdo).
  destruct (depth_output_Done _ _ _ _ _ _ _ _ Hdo)
    as (stage & _ & _ & Hvalues & Hact).
  assert (Hsize : List.length (Output.values out) = nPoints d)
    by (now rewrite Hvalues, length_map, length_seq).
  unfold indices_in_range.
  rewrite Hnodes, make_nodes_length.
  rewrite Forall_forall in Hunsigned.
  apply Forall_forall. intros elem Hin.
  destruct (Hunsigned elem Hin) as (_ & Hthree & Hrange).
  rewrite Helems in Hin.
  apply In_nth_error in Hin as (e & He).
  destruct (mapM_nth_error_of _ _ _ _ _ Hact He) as (b & Hb & _).
  destruct (element_active_Done _ _ _ Hb) as (d0 & d1 & d2 & H0 & H1 & H2 & _).
  assert (Hlt : forall k a, nth_error (Output.values out) (Z.to_nat k) = Some a ->
                            (0 <= k)%Z -> (0 <= k < Z.of_nat (nPoints d))%Z).
  { intros k a Hk Hk0.
    assert (Z.to_nat k < List.length (Output.values out))%nat
      by (apply nth_error_Some; congruence).
    lia. }
  destruct (Element.p elem) as [|p0 [|p1 [|p2 [|p3 ps]]]]; try discriminate.
  simpl in H0, H1, H2.
  inversion Hrange as [|? ? Hr0 Hr12]; subst.
  inversion Hr12 as [|? ? Hr1 Hr2']; subst.
  inversion Hr2' as [|? ? Hr2 _]; subst.
  repeat constructor.
  - apply (Hlt _ _ H0); lia.
  - apply (Hlt _ _ H0); lia.
  - apply (Hlt _ _ H1); lia.
  - apply (Hlt _ _ H1); lia.
  - apply (Hlt _ _ H2); lia.
  - apply (Hlt _ _ H2); lia.
Qed.

Lemma indices_in_range_with_timestep_pond : indices_in_range pond_mesh.
Proof.
  apply (indices_in_range_with_timestep (single "pond.sww" pond) "pond.sww"
           (Some stale) (Some (LoadStatus.clear stale)) pond_mesh
           (open_container pond) 2%nat);
    try (vm_compute; reflexivity).
  lia.
Defined.

(* ------------------------------------------------------------------ *)
(** ** A short elevation variable *)

Lemma skipn_repeat {A : Type} (a : A) (k n : nat) :
  skipn k (repeat a n) = repeat a (n - k).
Proof.
  revert k; induction n as [|n IH]; intros [|k]; simpl; auto.
Qed.

(** The elevation buffer starts out as zeros and [z] is read over it: the
    bed values of a returned mesh are the values of [z] followed by a zero
    for every point that [z] does not reach. *)
Theorem bed_values_zero_padded (nc_open : FileSystem) (fileName : string)
  (status status' : option LoadStatus.t) (mesh : Mesh.t) (ncid : NcFile)
  (zs : list float) (nPts : nat) :
  loadSWW nc_open fileName status = Done (Some mesh, status') ->
  nc_open fileName = Some ncid ->
  dimension ncid "number_of_points" = Some nPts ->
  float_variable ncid "z" = Some zs ->
  (List.length zs <= nPts)%nat /\
  exists bed o,
    Mesh.dataSet mesh "Bed Elevation" = Some bed /\
    DataSet.outputs bed = [o] /\
    Output.values o = zs ++ repeat F32.zero (nPts - List.length zs).
Proof.
  intros Hload Hopen HnPts Hzs.
  destruct (loaded_from _ _ _ _ _ _ Hload Hopen)
    as (d & v & md & Hd & _ & Hv & Hmd & Hres & _).
  destruct (get_dimensions_Some _ _ Hd) as (_ & _ & Hnpts & _).
  destruct (get_variables_Some _ _ Hv) as (_ & _ & Hz & _).
  destruct (load_mesh_data_Some _ _ _ _ Hmd)
    as (dx & dy & dz & vs & _ & _ & _ & _ & Hdz & Hwz & _).
  destruct (load_results_Done _ _ _ _ _ _ Hres)
    as (times & tos & rest & _ & _ & _ & _ & Hds & _).
  destruct (dataSet_by_name _ _ _ _ _ Hds) as (Hbed & _).
  rewrite HnPts in Hnpts; injection Hnpts as ->.
  rewrite (float_variable_id _ _ _ Hz), Hdz in Hzs; injection Hzs as ->.
  apply write_buffer_Done in Hwz as (Hle & Hpz).
  rewrite repeat_length in Hle. rewrite skipn_repeat in Hpz.
  split; [assumption|].
  exists (bed_dataset fileName (bed_output md d)), (bed_output md d).
  split; [assumption|]. split; [reflexivity|].
  rewrite (bed_output_values _ _ _ _ Hmd). exact Hpz.
Qed.

(** On the shallow pond [z] stops after two points: the bed is 1, 1, 0, 0. *)
Lemma bed_values_zero_padded_shallow :
  exists bed o,
    Mesh.dataSet shallow_mesh "Bed Elevation" = Some bed /\
    DataSet.outputs bed = [o] /\
    Output.values o = floats [1; 1; 0; 0]%Z.
Proof.
  destruct (bed_values_zero_padded (single "shallow.sww" shallow)
              "shallow.sww" None None shallow_mesh (open_container shallow)
              (floats [1; 1]%Z) 4%nat)
    as (_ & bed & o & Hbed & Hout & Hvalues); try (vm_compute; reflexivity).
  exists bed, o. auto.
Defined.

(* ------------------------------------------------------------------ *)
(** ** Containers that load *)

Lemma mapM_total {A B : Type} (f : A -> Run B) (l : list A) :
  (forall a, In a l -> exists b, f a = Done b) ->
  exists r, mapM f l = Done r.
Proof.
  induction l as [|a l IH]; intros H; simpl.
  - eauto.
  - destruct (H a) as (b & ->); [now left|].
    destruct IH as (r & ->); [intros a' Ha'; apply H; now right|].
    simpl. eauto.
Qed.

Lemma read_unchecked_fits {A : Type} (r : option (list A)) (buf : list A)
  (n : nat) :
  List.length buf = n -> fits r n = true ->
  exists b, read_unchecked r buf = Done b /\ List.length b = n.
Proof.
  intros Hbuf Hfits. destruct r as [data|]; simpl in *.
  - rewrite write_buffer_fits by (now rewrite Hbuf).
    eexists; split; [reflexivity|].
    rewrite length_app, length_skipn.
    apply Nat.leb_le in Hfits. lia.
  - eauto.
Qed.

Lemma index_total {A : Type} (v : list A) (k : Z) :
  (0 <= k < Z.of_nat (List.length v))%Z -> exists a, index v k = Done a.
Proof.
  intros Hk. unfold index.
  destruct (nth_error v (Z.to_nat k)) as [a|] eqn:E; [eauto|].
  apply nth_error_None in E. lia.
Qed.

Lemma element_active_total (values : list float) (elem : Element.t) :
  (forall j, (j < 3)%nat ->
     (0 <= nth j (Element.p elem) 0 < Z.of_nat (List.length values))%Z) ->
  exists b, element_active values elem = Done b.
Proof.
  intros H. unfold element_active.
  destruct (index_total values (nth 0 (Element.p elem) 0%Z)) as (v0 & ->);
    [apply H; lia|].
  destruct (index_total values (nth 1 (Element.p elem) 0%Z)) as (v1 & ->);
    [apply H; lia|].
  destruct (index_total values (nth 2 (Element.p elem) 0%Z)) as (v2 & ->);
    [apply H; lia|].
  simpl. eauto.
Qed.

Lemma momentum_outputs_total (ncid : NcFile) (d : Dimensions)
  (momentumxid momentumyid : Z) (times : list float) (ds : DataSet.t)
  (ts : list nat) :
  (forall t, In t ts ->
     nth_error (DataSet.outputs ds) t <> None /\
     fits (nc_get_vars_float ncid momentumxid [t; 0%nat] [1%nat; nPoints d]
                             [1%Z; 1%Z]) (nPoints d) = true /\
     fits (nc_get_vars_float ncid momentumyid [t; 0%nat] [1%nat; nPoints d]
                             [1%Z; 1%Z]) (nPoints d) = true) ->
  forall valuesX valuesY,
    List.length valuesX = nPoints d -> List.length valuesY = nPoints d ->
    exists mtos,
      momentum_outputs ncid d momentumxid momentumyid times ds
                       valuesX valuesY ts = Done mtos.
Proof.
  induction ts as [|t ts IH]; intros H valuesX valuesY HX HY; simpl.
  - eauto.
  - destruct (H t) as (Hout & HfX & HfY); [now left|].
    unfold DataSet.output.
    destruct (nth_error (DataSet.outputs ds) t) as [dto|]; [|congruence].
    simpl.
    destruct (read_unchecked_fits _ _ _ HX HfX) as (vx & -> & Hvx).
    destruct (read_unchecked_fits _ _ _ HY HfY) as (vy & -> & Hvy).
    simpl.
    destruct (IH (fun t' Ht' => H t' (or_intror Ht')) vx vy Hvx Hvy)
      as (rest & ->).
    simpl. eauto.
Qed.

Lemma read_corner_fits (ncid : NcFile) (name : string) :
  fits (nc_att_float ncid name) 1 = true -> read_corner ncid name = Done tt.
Proof.
  unfold read_corner, fits.
  destruct (nc_att_float ncid name) as [[|a [|b l]]|]; simpl;
    reflexivity || discriminate.
Qed.

(** The part of the load that follows the mesh data goes through when the
    corner attributes hold one value at most, the element loop and the
    timestep count stay within [int], the node indices name points and no
    read delivers more than its buffer holds. *)
Lemma load_results_total (ncid : NcFile) (fileName : string) (d : Dimensions)
  (v : Variables) (md : MeshData) :
  read_corner ncid "xllcorner" = Done tt ->
  read_corner ncid "yllcorner" = Done tt ->
  elements_fit_int (nVolumes d) = true ->
  fits_int (nTimesteps d) = true ->
  Forall (fun k => (0 <= k < Z.of_nat (nPoints d))%Z) (pvolumes md) ->
  List.length (pvolumes md) = (3 * nVolumes d)%nat ->
  fits (nc_get_var_float ncid (timeid v)) (nTimesteps d) = true ->
  (forall t, (t < nTimesteps d)%nat ->
     fits (nc_get_vars_float ncid (stageid v) [t; 0%nat] [1%nat; nPoints d]
                             [1%Z; 1%Z]) (nPoints d) = true) ->
  (forall mx my t,
     nc_inq_varid ncid "xmomentum" = Some mx ->
     nc_inq_varid ncid "ymomentum" = Some my ->
     (t < nTimesteps d)%nat ->
     fits (nc_get_vars_float ncid mx [t; 0%nat] [1%nat; nPoints d]
                             [1%Z; 1%Z]) (nPoints d) = true /\
     fits (nc_get_vars_float ncid my [t; 0%nat] [1%nat; nPoints d]
                             [1%Z; 1%Z]) (nPoints d) = true) ->
  exists mesh, load_results ncid fileName d v md = Done mesh.
Proof.
  intros Hcx Hcy Helems Hint Hrange Hlen Htime Hstage Hmom.
  unfold load_results. rewrite Hcx, Hcy. simpl.
  rewrite Helems, Hint. simpl.
  destruct (read_unchecked_fits (nc_get_var_float ncid (timeid v))
              (repeat F32.zero (nTimesteps d)) (nTimesteps d))
    as (times & -> & _); [apply repeat_length|assumption|].
  simpl.
  destruct (mapM_total
              (depth_output ncid d v times
                 (Output.values (bed_output md d))
                 (make_elements md (nVolumes d)))
              (seq 0 (nTimesteps d))) as (tos & Htos).
  { intros t Ht. apply in_seq in Ht.
    unfold depth_output. simpl.
    destruct (read_unchecked_fits
                (nc_get_vars_float ncid (stageid v) [t; 0%nat]
                   [1%nat; nPoints d] [1%Z; 1%Z])
                (repeat F32.zero (nPoints d)) (nPoints d))
      as (stage & -> & _); [apply repeat_length|apply Hstage; lia|].
    simpl.
    destruct (mapM_total
                (element_active
                   (map (fun j => F32.sub (nth j stage F32.zero)
                                   (nth j (Output.values (bed_output md d))
                                        F32.zero))
                        (seq 0 (nPoints d))))
                (make_elements md (nVolumes d))) as (act & Hact).
    { intros elem Hin. unfold make_elements in Hin.
      apply in_map_iff in Hin as (i & <- & Hi). apply in_seq in Hi.
      apply element_active_total.
      rewrite length_map, length_seq. simpl.
      intros j Hj.
      destruct j as [|[|[|j]]]; try lia;
        apply (Forall_nth_in _ _ _ 0%Z Hrange); lia. }
    simpl in Hact. rewrite Hact. simpl. eauto. }
  simpl in Htos. rewrite Htos. simpl.
  destruct (nc_inq_varid ncid "xmomentum") as [mx|] eqn:Hmx; [|eauto].
  destruct (nc_inq_varid ncid "ymomentum") as [my|] eqn:Hmy; [|eauto].
  destruct (momentum_outputs_total ncid d mx my times
              (depth_dataset fileName tos) (seq 0 (nTimesteps d)))
    with (valuesX := repeat F32.zero (nPoints d))
         (valuesY := repeat F32.zero (nPoints d)) as (mtos & ->);
    try apply repeat_length.
  - intros t Ht. apply in_seq in Ht.
    split; [|apply (Hmom mx my t); auto; lia].
    rewrite depth_dataset_outputs.
    apply nth_error_Some.
    rewrite (mapM_length _ _ _ Htos), length_seq. lia.
  - simpl. eauto.
Qed.

Lemma get_dimensions_of (ncid : NcFile) (nvol nver npts nts : nat) :
  dimension ncid "number_of_volumes" = Some nvol ->
  dimension ncid "number_of_vertices" = Some nver ->
  dimension ncid "number_of_points" = Some npts ->
  dimension ncid "number_of_timesteps" = Some nts ->
  get_dimensions ncid =
  Some {| nVolumes := nvol; nVertices := nver; nPoints := npts;
          nTimesteps := nts |}.
Proof.
  unfold dimension, get_dimensions. intros H1 H2 H3 H4.
  destruct (nc_inq_dimid ncid "number_of_volumes"); [|discriminate].
  destruct (nc_inq_dimid ncid "number_of_vertices"); [|discriminate].
  destruct (nc_inq_dimid ncid "number_of_points"); [|discriminate].
  destruct (nc_inq_dimid ncid "number_of_timesteps"); [|discriminate].
  now rewrite H1, H2, H3, H4.
Qed.

Lemma forallb_seq (f : nat -> bool) (n t : nat) :
  forallb f (seq 0 n) = true -> (t < n)%nat -> f t = true.
Proof.
  intros H Ht. rewrite forallb_forall in H. apply H, in_seq. lia.
Qed.

(** A container of the documented layout is loaded.  It has the four
    dimensions, three vertices per volume and the six variables; its numbers
    of points and of timesteps fit an [int], and so does the index
    arithmetic [3 * i + 2] of its volumes; [x], [y] and [z] hold one value
    per point and [volumes] three point indices per volume; the corner
    attributes hold one value at most; [time], the rows of [stage] and,
    where both momentum variables exist, their rows deliver no more values
    than the dimensions announce (or fail to be read).  Then the run never
    leaves its buffers and returns a mesh, with no error in the status
    object. *)
Theorem conforming_container_loads (nc_open : FileSystem) (fileName : string)
  (status : option LoadStatus.t) (ncid : NcFile) (nVols nPts nTs : nat)
  (xs ys zs : list float) (vols : list Z) :
  nc_open fileName = Some ncid ->
  dimension ncid "number_of_volumes" = Some nVols ->
  dimension ncid "number_of_vertices" = Some 3%nat ->
  dimension ncid "number_of_points" = Some nPts ->
  dimension ncid "number_of_timesteps" = Some nTs ->
  fits_int nPts = true ->
  elements_fit_int nVols = true ->
  fits_int nTs = true ->
  fits (nc_att_float ncid "xllcorner") 1 = true ->
  fits (nc_att_float ncid "yllcorner") 1 = true ->
  float_variable ncid "x" = Some xs -> List.length xs = nPts ->
  float_variable ncid "y" = Some ys -> List.length ys = nPts ->
  float_variable ncid "z" = Some zs -> List.length zs = nPts ->
  int_variable ncid "volumes" = Some vols ->
  List.length vols = (3 * nVols)%nat ->
  forallb (fun k => (0 <=? k)%Z && (k <? Z.of_nat nPts)%Z) vols = true ->
  nc_inq_varid ncid "time" <> None ->
  nc_inq_varid ncid "stage" <> None ->
  fits (float_variable ncid "time") nTs = true ->
  forallb (fun t => fits (row ncid "stage" t) nPts
                    && fits (row ncid "xmomentum" t) nPts
                    && fits (row ncid "ymomentum" t) nPts)
          (seq 0 nTs) = true ->
  exists mesh,
    loadSWW nc_open fileName status =
    Done (Some mesh, option_map LoadStatus.clear status).
Proof.
  intros Hopen Hnvol Hnver Hnpts Hnts HintP HintV HintT Hcx Hcy
         Hxs Hxlen Hys Hylen Hzs Hzlen
         Hvols Hvlen Hrange Htime Hstage Htimes Hrows.
  pose proof (get_dimensions_of _ _ _ _ _ Hnvol Hnver Hnpts Hnts) as Hd.
  unfold float_variable in Hxs, Hys, Hzs, Htimes. unfold int_variable in Hvols.
  destruct (nc_inq_varid ncid "x") as [ix|] eqn:Hix; [|discriminate].
  destruct (nc_inq_varid ncid "y") as [iy|] eqn:Hiy; [|discriminate].
  destruct (nc_inq_varid ncid "z") as [iz|] eqn:Hiz; [|discriminate].
  destruct (nc_inq_varid ncid "volumes") as [ivol|] eqn:Hivol; [|discriminate].
  destruct (nc_inq_varid ncid "time") as [itime|] eqn:Hitime; [|congruence].
  destruct (nc_inq_varid ncid "stage") as [istage|] eqn:Histage; [|congruence].
  set (d := {| nVolumes := nVols; nVertices := 3; nPoints := nPts;
               nTimesteps := nTs |}) in *.
  set (v := {| xid := ix; yid := iy; zid := iz; volumesid := ivol;
               timeid := itime; stageid := istage |}).
  assert (Hv : get_variables ncid = Some v).
  { unfold get_variables. now rewrite Hix, Hiy, Hiz, Hivol, Hitime, Histage. }
  assert (Hfill : forall data,
            List.length data = nPts ->
            read_checked (Some data) (repeat F32.zero nPts) = Done (Some data)).
  { intros data Hlen. simpl.
    rewrite write_buffer_fits
      by (rewrite repeat_length, Hlen; apply Nat.leb_refl).
    rewrite skipn_repeat, Hlen, Nat.sub_diag. simpl.
    now rewrite app_nil_r. }
  set (md := {| px := xs; py := ys; pz := zs;
                pvolumes := map to_unsigned vols |}).
  assert (Hmd : load_mesh_data ncid d v = Done (Some md)).
  { unfold load_mesh_data. simpl. rewrite HintP. simpl.
    rewrite Hxs, (Hfill xs Hxlen). simpl.
    rewrite Hys, (Hfill ys Hylen). simpl.
    rewrite Hzs, (Hfill zs Hzlen). simpl.
    rewrite Hvols, Hvlen, Nat.eqb_refl. reflexivity. }
  destruct (load_results_total ncid fileName d v md) as (mesh & Hmesh).
  - now apply read_corner_fits.
  - now apply read_corner_fits.
  - exact HintV.
  - exact HintT.
  - simpl. apply Forall_map.
    rewrite forallb_forall in Hrange. apply Forall_forall.
    intros k Hk. apply to_unsigned_in_range.
    specialize (Hrange k Hk). apply andb_prop in Hrange as [H0 H1].
    apply Z.leb_le in H0. apply Z.ltb_lt in H1. lia.
  - simpl. now rewrite length_map.
  - exact Htimes.
  - intros t Ht. simpl.
    pose proof (forallb_seq _ _ _ Hrows Ht) as Hrow.
    apply andb_prop in Hrow as [Hrow _]. apply andb_prop in Hrow as [Hrow _].
    now rewrite (row_id _ _ _ _ _ Histage Hnpts) in Hrow.
  - intros mx my t Hmx Hmy Ht. simpl.
    pose proof (forallb_seq _ _ _ Hrows Ht) as Hrow.
    apply andb_prop in Hrow as [Hrow Hy]. apply andb_prop in Hrow as [_ Hx].
    rewrite (row_id _ _ _ _ _ Hmx Hnpts) in Hx.
    rewrite (row_id _ _ _ _ _ Hmy Hnpts) in Hy. auto.
  - exists mesh. unfold loadSWW.
    rewrite Hopen, Hd. simpl. rewrite Hv, Hmd. simpl.
    now rewrite Hmesh.
Qed.

Lemma conforming_container_loads_pond :
  exists mesh,
    loadSWW (single "pond.sww" pond) "pond.sww" (Some stale) =
    Done (Some mesh, Some (LoadStatus.clear stale)).
Proof.
  apply (conforming_container_loads (single "pond.sww" pond) "pond.sww"
           (Some stale) (open_container pond) 2%nat 4%nat 2%nat
           (floats [0; 1; 1; 0]%Z) (floats [0; 0; 1; 1]%Z)
           (floats [0; 0; 1; 1]%Z) [0; 1; 2; 0; 2; 3]%Z);
    try (vm_compute; reflexivity); discriminate.
Defined.

Lemma read_unchecked_Done_fits {A : Type} (r : option (list A))
  (buf b : list A) :
  read_unchecked r buf = Done b -> fits r (List.length buf) = true.
Proof.
  destruct r as [data|]; simpl; [|reflexivity].
  intros H. apply write_buffer_Done in H as [Hle _]. now apply Nat.leb_le.
Qed.

(** Conversely, the buffers are sized from the dimensions and no read is
    compared with them: in a run that returns a mesh, [x], [y] and [z]
    delivered at most one value per point, [volumes] exactly three entries
    per volume, [time] at most one value per timestep, and every row read
    of [stage], and of the momentum variables when both exist, at most one
    value per point. *)
Theorem loaded_reads_fit (nc_open : FileSystem) (fileName : string)
  (status status' : option LoadStatus.t) (mesh : Mesh.t) (ncid : NcFile)
  (nVols nPts nTs : nat) :
  loadSWW nc_open fileName status = Done (Some mesh, status') ->
  nc_open fileName = Some ncid ->
  dimension ncid "number_of_volumes" = Some nVols ->
  dimension ncid "number_of_points" = Some nPts ->
  dimension ncid "number_of_timesteps" = Some nTs ->
  fits (float_variable ncid "x") nPts = true /\
  fits (float_variable ncid "y") nPts = true /\
  fits (float_variable ncid "z") nPts = true /\
  (exists vols, int_variable ncid "volumes" = Some vols /\
                List.length vols = (3 * nVols)%nat) /\
  fits (float_variable ncid "time") nTs = true /\
  forall t, (t < nTs)%nat ->
    fits (row ncid "stage" t) nPts = true /\
    (nc_inq_varid ncid "xmomentum" <> None ->
     nc_inq_varid ncid "ymomentum" <> None ->
     fits (row ncid "xmomentum" t) nPts = true /\
     fits (row ncid "ymomentum" t) nPts = true).
Proof.
  intros Hload Hopen HnVols HnPts HnTs.
  destruct (loaded_from _ _ _ _ _ _ Hload Hopen)
    as (d & v & md & Hd & Hver & Hv & Hmd & Hres & _).
  destruct (get_dimensions_Some _ _ Hd) as (Hnvol & _ & Hnpts & Hnts).
  destruct (get_variables_Some _ _ Hv)
    as (Hx & Hy & Hz & Hvol & Htime & Hstage).
  destruct (load_mesh_data_Some _ _ _ _ Hmd)
    as (dx & dy & dz & vs & Hdx & Hwx & Hdy & Hwy & Hdz & Hwz & Hvs & Hlen & _).
  destruct (load_results_Done _ _ _ _ _ _ Hres)
    as (times & tos & rest & Htimes & Htos & _ & _ & _ & Hrest).
  rewrite HnVols in Hnvol; injection Hnvol as ->.
  pose proof Hnpts as Hpoints.
  rewrite HnPts in Hnpts; injection Hnpts as ->.
  rewrite HnTs in Hnts; injection Hnts as ->.
  rewrite (float_variable_id _ _ _ Hx), (float_variable_id _ _ _ Hy),
          (float_variable_id _ _ _ Hz), (float_variable_id _ _ _ Htime),
          (int_variable_id _ _ _ Hvol), Hdx, Hdy, Hdz.
  apply write_buffer_Done in Hwx as [Hlx _], Hwy as [Hly _], Hwz as [Hlz _].
  rewrite repeat_length in Hlx, Hly, Hlz.
  repeat split; try (simpl; now apply Nat.leb_le).
  - exists vs. split; [assumption|]. now rewrite Hlen, Hver.
  - apply read_unchecked_Done_fits in Htimes.
    now rewrite repeat_length in Htimes.
  - rewrite (row_id _ _ _ _ _ Hstage Hpoints).
    assert (Hout : exists out, nth_error tos t = Some out).
    { destruct (nth_error tos t) as [out|] eqn:E; [eauto|].
      apply nth_error_None in E.
      rewrite (mapM_length _ _ _ Htos), length_seq in E. lia. }
    destruct Hout as (out & Hout).
    destruct (depth_loop_nth _ _ _ _ _ _ _ _ _ Htos Hout) as (_ & Hdo).
    destruct (depth_output_Done _ _ _ _ _ _ _ _ Hdo) as (stage & Hs & _).
    apply read_unchecked_Done_fits in Hs.
    now rewrite repeat_length in Hs.
  - destruct Hrest as [(_ & [Hno|Hno])|(mx & my & mtos & Hmx & Hmy & Hmtos & _)];
      [congruence|congruence|].
    rewrite (row_id _ _ _ _ _ Hmx Hpoints).
    destruct (momentum_outputs_Done _ _ _ _ _ _ _ _ _ _ Hmtos) as (Hl & Hnth).
    assert (Hmto : exists mto, nth_error mtos t = Some mto).
    { destruct (nth_error mtos t) as [mto|] eqn:E; [eauto|].
      apply nth_error_None in E. rewrite Hl, length_seq in E. lia. }
    destruct Hmto as (mto & Hmto).
    destruct (Hnth _ _ Hmto)
      as (t' & dto & bX & bY & vx & vy & Ht' & _ & HbX & _ & Hvx & _).
    rewrite nth_error_seq in Ht'.
    destruct (t <? nTimesteps d)%nat; [|discriminate].
    injection Ht' as <-.
    apply read_unchecked_Done_fits in Hvx.
    now rewrite HbX, repeat_length in Hvx.
  - destruct Hrest as [(_ & [Hno|Hno])|(mx & my & mtos & Hmx & Hmy & Hmtos & _)];
      [congruence|congruence|].
    rewrite (row_id _ _ _ _ _ Hmy Hpoints).
    destruct (momentum_outputs_Done _ _ _ _ _ _ _ _ _ _ Hmtos) as (Hl & Hnth).
    assert (Hmto : exists mto, nth_error mtos t = Some mto).
    { destruct (nth_error mtos t) as [mto|] eqn:E; [eauto|].
      apply nth_error_None in E. rewrite Hl, length_seq in E. lia. }
    destruct Hmto as (mto & Hmto).
    destruct (Hnth _ _ Hmto)
      as (t' & dto & bX & bY & vx & vy & Ht' & _ & _ & HbY & _ & Hvy & _).
    rewrite nth_error_seq in Ht'.
    destruct (t <? nTimesteps d)%nat; [|discriminate].
    injection Ht' as <-.
    apply read_unchecked_Done_fits in Hvy.
    now rewrite HbY, repeat_length in Hvy.
Qed.

Lemma loaded_reads_fit_shallow :
  fits (float_variable (open_container shallow) "z") 4 = true /\
  (exists vols, int_variable (open_container shallow) "volumes" = Some vols /\
                List.length vols = 6%nat) /\
  fits (row (open_container shallow) "stage" 1) 4 = true.
Proof.
  destruct (loaded_reads_fit (single "shallow.sww" shallow) "shallow.sww"
              None None shallow_mesh (open_container shallow)
              2%nat 4%nat 2%nat)
    as (_ & _ & Hz & Hvols & _ & Hrows); try (vm_compute; reflexivity).
  split; [exact Hz|]. split; [exact Hvols|].
  destruct (Hrows 1%nat) as (Hstage & _); [lia|exact Hstage].
Defined.

(* ------------------------------------------------------------------ *)
(** ** Sizes *)

(** A run that returns a mesh made every vector from a length that fits an
    [int], kept the element loop within [int], and stored one value at most
    in each corner variable. *)
Lemma loaded_sizes_fit_int (nc_open : FileSystem) (fileName : string)
  (status status' : option LoadStatus.t) (mesh : Mesh.t) (ncid : NcFile) :
  loadSWW nc_open fileName status = Done (Some mesh, status') ->
  nc_open fileName = Some ncid ->
  exists d,
    get_dimensions ncid = Some d /\
    fits_int (nPoints d) = true /\
    elements_fit_int (nVolumes d) = true /\
    fits_int (nTimesteps d) = true /\
    fits (nc_att_float ncid "xllcorner") 1 = true /\
    fits (nc_att_float ncid "yllcorner") 1 = true.
Proof.
  intros Hload Hopen.
  destruct (loaded_from _ _ _ _ _ _ Hload Hopen)
    as (d & v & md & Hd & _ & _ & Hmd & Hres & _).
  exists d. split; [assumption|].
  unfold load_mesh_data in Hmd. unfold load_results in Hres.
  destruct (fits_int (nPoints d)); [|discriminate].
  apply bind_Done in Hres as (ux & Hcx & Hres).
  apply bind_Done in Hres as (uy & Hcy & Hres).
  destruct (elements_fit_int (nVolumes d)); [|discriminate].
  destruct (fits_int (nTimesteps d)); [|discriminate].
  unfold read_corner in Hcx, Hcy. unfold fits.
  destruct (nc_att_float ncid "xllcorner") as [[|a [|b l]]|]; try discriminate;
    destruct (nc_att_float ncid "yllcorner") as [[|a' [|b' l']]|];
    try discriminate; auto.
Qed.

(** The still pond with two values under [xllcorner]: the second one is
    stored past the corner variable. *)
Lemma twin_corner_leaves_the_corner :
  loadSWW (single "twin.sww" twin_corner) "twin.sww" None = Undefined.
Proof. vm_compute; reflexivity. Qed.
